(** * Swerve drivetrain coordinator: a shallow embedding

  The repository holds two generations of the same coordinator:
  [src/swervepy/subsystem.py] (module [Swervepy] below) and the older
  [src/swervelib/impl/system.py] (module [Swervelib]).  Both drive the
  wpimath kinematics and pose-estimator classes, the abstract
  [SwerveModule] and [Gyro] interfaces and the dashboard, none of which
  is part of the repository.

  Numbers: Python floats are idealised as real numbers throughout, so
  every statement below is about exact arithmetic. *)

From Stdlib Require Import Reals Lra List.
From stdpp Require Import base option list strings pretty gmap.

#[local] Open Scope R_scope.

(** ** Python-level plumbing: exceptions, call log, state *)

Inductive Exn : Type :=
| IndexError
| ValueError
| AttributeError.

Module Wpimath.

(** *** wpimath.geometry *)

(** Modelled from the spec: the geometry classes are wpimath's.  A
    translation or placement is an {x, y} offset, a rotation is kept by its
    angle in radians, a pose is {x, y, heading}. *)
Record Translation2d : Type := mkTranslation2d { x : R; y : R }.

Record Rotation2d : Type := mkRotation2d { radians : R }.

Record Pose2d : Type := mkPose2d
  { translation : Translation2d; rotation : Rotation2d }.

(** Modelled from the spec: [Translation2d.__mul__] is wpimath's; the
    command scales its inputs by the velocity limit. *)
Definition Translation2d_mul (t : Translation2d) (k : R) : Translation2d :=
  mkTranslation2d (x t * k) (y t * k).

(** [Rotation2d()] and [Pose2d()]: the zero rotation, the origin pose. *)
Definition Rotation2d_zero : Rotation2d := mkRotation2d 0.
Definition Pose2d_origin : Pose2d :=
  mkPose2d (mkTranslation2d 0 0) Rotation2d_zero.

(** *** wpimath.kinematics *)

(** Modelled from the spec: chassis motion is a translation speed in m/s and
    a CCW+ rotation rate in rad/s; a module state is a signed speed and an
    angle; a module position is a cumulative distance and an angle. *)
Record ChassisSpeeds : Type := mkChassisSpeeds { vx : R; vy : R; omega : R }.

Record SwerveModuleState : Type := mkSwerveModuleState
  { speed : R; angle : Rotation2d }.

Record SwerveModulePosition : Type := mkSwerveModulePosition
  { distance : R; position_angle : Rotation2d }.

(** Modelled from the spec: [ChassisSpeeds.fromFieldRelativeSpeeds] is
    wpimath's; the spec has it rotate the translation between the field
    frame and the robot frame by the current heading before composing the
    chassis speed.  The field-frame vector is turned by the negated
    heading. *)
Definition fromFieldRelativeSpeeds
    (vx_field vy_field omega_ : R) (robot_angle : Rotation2d) : ChassisSpeeds :=
  let c := cos (radians robot_angle) in
  let s := sin (radians robot_angle) in
  mkChassisSpeeds (vx_field * c + vy_field * s)
                  (- vx_field * s + vy_field * c)
                  omega_.

(** Modelled from the spec: the kinematics object
    ([SwerveDrive<N>Kinematics]) is wpimath's, built from the module
    placements.  Its inverse and forward kinematics stay abstract. *)
Record Kinematics : Type := mkKinematics
  { placements : list Translation2d;
    toSwerveModuleStates : ChassisSpeeds -> list SwerveModuleState;
    toChassisSpeeds : list SwerveModuleState -> ChassisSpeeds }.

(** Modelled from the spec: max(|vi|), the largest speed magnitude of a
    state list (0 for the empty list, which no magnitude undercuts). *)
Definition max_abs_speed (states : list SwerveModuleState) : R :=
  foldr (fun s m => Rmax (Rabs (speed s)) m) 0 states.

(** Modelled from the spec: a module exceeds the ceiling. *)
Definition exceeds (ceiling : R) (s : SwerveModuleState) : bool :=
  if Rlt_dec ceiling (Rabs (speed s)) then true else false.

(** Modelled from the spec: pure magnitude scaling, the angle kept. *)
Definition scale_speed (k : R) (s : SwerveModuleState) : SwerveModuleState :=
  mkSwerveModuleState (speed s * k) (angle s).

(** Modelled from the spec: [desaturateWheelSpeeds] is wpimath's; the spec
    describes it as a uniform magnitude scale-down if any module exceeds
    the ceiling, ratios preserved, and the input returned as it is
    otherwise. *)
Definition desaturateWheelSpeeds
    (states : list SwerveModuleState) (attainable_max : R)
    : list SwerveModuleState :=
  if existsb (exceeds attainable_max) states
  then map (scale_speed (attainable_max / max_abs_speed states)) states
  else states.

(** *** wpimath.estimator *)

(** Modelled from the spec: the filter internals of the pose estimator are
    out of scope and stay abstract: how wheel odometry advances a pose and
    how a vision pose is blended in. *)
Record Filter : Type := mkFilter
  { fuse : Pose2d -> Rotation2d -> list SwerveModulePosition ->
           Rotation2d -> list SwerveModulePosition -> Pose2d;
    blend : Pose2d -> Pose2d -> R -> Pose2d }.

(** Modelled from the spec: the pose estimator
    ([SwerveDrive<N>PoseEstimator]) is wpimath's.  It owns the pose
    estimate, the heading and module positions of its baseline, and the
    history of the timestamped corrections it accepted. *)
Record PoseEstimator : Type := mkPoseEstimator
  { est_filter : Filter;
    est_pose : Pose2d;
    base_heading : Rotation2d;
    base_positions : list SwerveModulePosition;
    corrections : list (Pose2d * R) }.

(** Modelled from the spec: construction seeds the estimate at the given
    pose with the current heading and positions as baseline. *)
Definition PoseEstimator_new (f : Filter) (k : Kinematics)
    (heading : Rotation2d) (positions : list SwerveModulePosition)
    (initial : Pose2d) : PoseEstimator :=
  mkPoseEstimator f initial heading positions [].

(** Modelled from the spec: [update(heading, N positions) -> pose] fuses
    the readings into the estimate and returns the new estimate. *)
Definition update (heading : Rotation2d)
    (positions : list SwerveModulePosition) (e : PoseEstimator)
    : Pose2d * PoseEstimator :=
  let p := fuse (est_filter e) (est_pose e) (base_heading e)
                (base_positions e) heading positions in
  (p, mkPoseEstimator (est_filter e) p heading positions (corrections e)).

(** Modelled from the spec: [addVisionMeasurement(pose, timestamp)] feeds
    a timestamped correction to the estimator. *)
Definition addVisionMeasurement (vision : Pose2d) (timestamp : R)
    (e : PoseEstimator) : PoseEstimator :=
  mkPoseEstimator (est_filter e)
                  (blend (est_filter e) (est_pose e) vision timestamp)
                  (base_heading e) (base_positions e)
                  ((vision, timestamp) :: corrections e).

(** Modelled from the spec: [resetPosition(heading, N positions, pose)]
    resets the internal history to the given pose, with the given heading
    and positions as the new baseline. *)
Definition resetPosition (heading : Rotation2d)
    (positions : list SwerveModulePosition) (pose : Pose2d)
    (e : PoseEstimator) : PoseEstimator :=
  mkPoseEstimator (est_filter e) pose heading positions [].

(** Modelled from the spec: [estimatedPose -> pose]. *)
Definition getEstimatedPosition (e : PoseEstimator) : Pose2d := est_pose e.

End Wpimath.

(** ** The collaborators the coordinator talks to *)

Module Hardware.
Import Wpimath.

(** Modelled from the spec: the abstract [SwerveModule] interface is not in
    the source files.  The coordinator reads its fixed placement and its
    instantaneous read-backs; the commands sent to a module are recorded in
    the call log below. *)
Record SwerveModule : Type := mkSwerveModule
  { placement : Translation2d;
    module_position : SwerveModulePosition;
    module_state : SwerveModuleState }.

(** Modelled from the spec: the abstract [Gyro] interface is not in the
    source files; it reports a CCW+ heading. *)
Record Gyro : Type := mkGyro { heading : Rotation2d }.

(** Modelled from the spec: [Gyro.zero_heading] is abstract in the
    repository; the spec has it establish the current orientation as the
    reference direction. *)
Definition Gyro_zero_heading (g : Gyro) : Gyro := mkGyro Rotation2d_zero.

(** Calls made on collaborators, in program order.  A module is named by
    its index in the tuple the drivetrain was built with. *)
Inductive Call : Type :=
| Sleep (seconds : R)
| ModuleReset (i : nat)
| GyroZeroHeading
| ModuleDesireState (i : nat) (state : SwerveModuleState)
                    (open_loop rotate_in_place : bool)
| VisionPoseCallback (current : Pose2d)
| PutData (key : string).

End Hardware.

(** ** A state, log and exception monad for method bodies *)

Module Py.
Import Hardware.

(** What running a method leaves behind: the calls it made, the object
    state it ended in, and its return value or the exception raised. *)
Record Run (S A : Type) : Type := mkRun
  { calls : list Call; final : S; outcome : Exn + A }.
Arguments mkRun {S A} _ _ _.
Arguments calls {S A} _.
Arguments final {S A} _.
Arguments outcome {S A} _.

Definition M (S A : Type) : Type := S -> Run S A.

Definition ret {S A} (a : A) : M S A := fun s => mkRun [] s (inr a).

Definition raise {S A} (e : Exn) : M S A := fun s => mkRun [] s (inl e).

Definition bind {S A B} (m : M S A) (k : A -> M S B) : M S B :=
  fun s =>
    let r := m s in
    match outcome r with
    | inl e => mkRun (calls r) (final r) (inl e)
    | inr a =>
        let r' := k a (final r) in
        mkRun (calls r ++ calls r') (final r') (outcome r')
    end.

Definition get {S} : M S S := fun s => mkRun [] s (inr s).

Definition put {S} (s' : S) : M S unit := fun _ => mkRun [] s' (inr tt).

Definition modify {S} (f : S -> S) : M S unit :=
  fun s => mkRun [] (f s) (inr tt).

Definition call {S} (c : Call) : M S unit := fun s => mkRun [c] s (inr tt).

Declare Scope py_scope.
Delimit Scope py_scope with py.
Notation "x <- c ;; k" := (bind c (fun x => k))
  (at level 100, c at next level, right associativity) : py_scope.
Notation "c ;; k" := (bind c (fun _ => k))
  (at level 100, right associativity) : py_scope.

#[local] Open Scope py_scope.

(** [t[i]] on a tuple, for a non-negative index. *)
Definition index {S A} (t : list A) (i : nat) : M S A :=
  match t !! i with
  | Some a => ret a
  | None => raise IndexError
  end.

(** [range(n)] *)
Definition range (n : nat) : list nat := seq 0 n.

(** [for a in l: body(a)] *)
Fixpoint for_each {S A} (l : list A) (body : A -> M S unit) : M S unit :=
  match l with
  | [] => ret tt
  | a :: l' => body a ;; for_each l' body
  end.

End Py.

(** ** The wpimath namespaces the constructor looks classes up in *)

Module Namespace.
Import Wpimath.

(** Modelled from the spec: the classes selected by module count,
    [getattr(wpimath.kinematics, f"SwerveDrive{n}Kinematics")] and
    [getattr(wpimath.estimator, f"SwerveDrive{n}PoseEstimator")].  Which
    module counts have a class is the library's business. *)
Record Classes : Type := mkClasses
  { kinematics_class : nat -> option (list Translation2d -> Kinematics);
    estimator_class : nat -> option Filter }.

Definition getattr_class {S A} (o : option A) : Py.M S A :=
  match o with
  | Some c => Py.ret c
  | None => Py.raise AttributeError
  end.

End Namespace.

(** ** src/swervepy/subsystem.py *)

Module Swervepy.
Import Wpimath Hardware Py Namespace.
#[local] Open Scope py_scope.

(** *** class SwerveDrive *)

Record SwerveDrive : Type := mkSwerveDrive
  { _modules : list SwerveModule;
    _gyro : Gyro;
    _vision_pose_callback : Pose2d -> option Pose2d;
    max_velocity : R;
    max_angular_velocity : R;
    _kinematics : Kinematics;
    _odometry : PoseEstimator;
    field : option Pose2d (* the robot pose shown on the Field2d *) }.

Definition set_odometry (o : PoseEstimator) (self : SwerveDrive) : SwerveDrive :=
  mkSwerveDrive (_modules self) (_gyro self) (_vision_pose_callback self)
    (max_velocity self) (max_angular_velocity self) (_kinematics self)
    o (field self).

Definition set_gyro (g : Gyro) (self : SwerveDrive) : SwerveDrive :=
  mkSwerveDrive (_modules self) g (_vision_pose_callback self)
    (max_velocity self) (max_angular_velocity self) (_kinematics self)
    (_odometry self) (field self).

Definition set_field (p : Pose2d) (self : SwerveDrive) : SwerveDrive :=
  mkSwerveDrive (_modules self) (_gyro self) (_vision_pose_callback self)
    (max_velocity self) (max_angular_velocity self) (_kinematics self)
    (_odometry self) (Some p).

(** [module_positions] property *)
Definition module_positions (self : SwerveDrive) : list SwerveModulePosition :=
  map module_position (_modules self).

(** [pose] property *)
Definition pose (self : SwerveDrive) : Pose2d :=
  getEstimatedPosition (_odometry self).

(** [heading] property *)
Definition heading (self : SwerveDrive) : Rotation2d :=
  Hardware.heading (_gyro self).

(** [robot_relative_speeds] property *)
Definition robot_relative_speeds (self : SwerveDrive) : ChassisSpeeds :=
  toChassisSpeeds (_kinematics self) (map module_state (_modules self)).

(** [reset_modules]: [reset()] on every module, in tuple order. *)
Definition reset_modules : M SwerveDrive unit :=
  self <- get ;;
  for_each (range (length (_modules self))) (fun i => call (ModuleReset i)).

(** [zero_heading] *)
Definition zero_heading : M SwerveDrive unit :=
  call GyroZeroHeading ;;
  modify (fun self => set_gyro (Gyro_zero_heading (_gyro self)) self).

(** The default of the [vision_pose_callback] parameter: [lambda _: None]. *)
Definition default_vision_pose_callback : Pose2d -> option Pose2d :=
  fun _ => None.

(** [__init__]; an omitted [vision_pose_callback] is [None] here.  The
    quantities are taken in m/s and rad/s already. *)
Definition __init__ (wpimath : Classes)
    (modules : list SwerveModule) (gyro : Gyro)
    (max_velocity_ max_angular_velocity_ : R)
    (vision_pose_callback : option (Pose2d -> option Pose2d))
    : Run unit (SwerveDrive) :=
  let callback := default default_vision_pose_callback vision_pose_callback in
  (call (Sleep 1) ;;
   for_each (range (length modules)) (fun i => call (ModuleReset i)) ;;
   call GyroZeroHeading ;;
   let gyro' := Gyro_zero_heading gyro in
   k <- getattr_class (kinematics_class wpimath (length modules)) ;;
   let kinematics := k (map placement modules) in
   f <- getattr_class (estimator_class wpimath (length modules)) ;;
   let odometry :=
     PoseEstimator_new f kinematics (Hardware.heading gyro')
       (map module_position modules) Pose2d_origin in
   for_each (imap (fun i (_ : SwerveModule) => i) modules)
     (fun i => call (PutData ("Module " +:+ pretty i))) ;;
   call (PutData "Field") ;;
   ret (mkSwerveDrive modules gyro' callback max_velocity_
          max_angular_velocity_ kinematics odometry None)) tt.

(** [periodic]; [fpga_timestamp] is what [wpilib.Timer.getFPGATimestamp()]
    returns when it is read. *)
Definition periodic (fpga_timestamp : R) : M SwerveDrive unit :=
  self <- get ;;
  let '(robot_pose, odometry) :=
    update (Hardware.heading (_gyro self)) (module_positions self) (_odometry self) in
  put (set_odometry odometry self) ;;
  self <- get ;;
  call (VisionPoseCallback (pose self)) ;;
  let vision_pose := _vision_pose_callback self (pose self) in
  (* [if vision_pose:] a pose object is true, [None] is false *)
  (match vision_pose with
   | Some vision =>
       modify (fun self =>
         set_odometry (addVisionMeasurement vision fpga_timestamp (_odometry self)) self)
   | None => ret tt
   end) ;;
  modify (set_field robot_pose).

(** [desire_module_states]; an omitted keyword argument is [None]. *)
Definition desire_module_states (states : list SwerveModuleState)
    (drive_open_loop rotate_in_place : option bool) : M SwerveDrive unit :=
  let drive_open_loop := default false drive_open_loop in
  let rotate_in_place := default true rotate_in_place in
  self <- get ;;
  let swerve_module_states := desaturateWheelSpeeds states (max_velocity self) in
  for_each (range (length (_modules self))) (fun i =>
    self <- get ;;
    _ <- index (_modules self) i ;;
    state <- index swerve_module_states i ;;
    call (ModuleDesireState i state drive_open_loop rotate_in_place)).

(** [drive], the primary implementation *)
Definition drive (translation : Translation2d) (rotation : R)
    (field_relative drive_open_loop : bool) : M SwerveDrive unit :=
  self <- get ;;
  let speeds :=
    if field_relative
    then fromFieldRelativeSpeeds (x translation) (y translation) rotation
           (Hardware.heading (_gyro self))
    else mkChassisSpeeds (x translation) (y translation) rotation in
  let swerve_module_states := toSwerveModuleStates (_kinematics self) speeds in
  desire_module_states swerve_module_states (Some drive_open_loop) (Some false).

(** [drive], the implementation registered for [ChassisSpeeds] *)
Definition drive_ChassisSpeeds (chassis_speeds : ChassisSpeeds)
    (drive_open_loop : bool) : M SwerveDrive unit :=
  let translation := mkTranslation2d (vx chassis_speeds) (vy chassis_speeds) in
  drive translation (omega chassis_speeds) false drive_open_loop.

(** [singledispatchmethod]: the implementation is chosen by the class of the
    first positional argument. *)
Inductive DriveArgs : Type :=
| ByTranslation (translation : Translation2d) (rotation : R)
                (field_relative drive_open_loop : bool)
| ByChassisSpeeds (chassis_speeds : ChassisSpeeds) (drive_open_loop : bool).

Definition drive_dispatch (args : DriveArgs) : M SwerveDrive unit :=
  match args with
  | ByTranslation t r fr ol => drive t r fr ol
  | ByChassisSpeeds cs ol => drive_ChassisSpeeds cs ol
  end.

(** [reset_odometry] *)
Definition reset_odometry (pose_ : Pose2d) : M SwerveDrive unit :=
  modify (fun self =>
    set_odometry
      (resetPosition (Hardware.heading (_gyro self)) (module_positions self) pose_
         (_odometry self)) self).


(** *** class _TeleOpCommand *)

(** The command's instance attributes.  The two flags live in the
    instance dictionary, where [setattr] with a name reaches them (and
    creates an entry for a name not yet there); the drivetrain the command
    drives is the state the methods run in. *)
Record _TeleOpCommand : Type := mk_TeleOpCommand
  { _translation : unit -> R;
    _strafe : unit -> R;
    _rotation : unit -> R;
    attrs : gmap string bool }.

Definition setattr (self : _TeleOpCommand) (name : string) (val : bool)
    : _TeleOpCommand :=
  mk_TeleOpCommand (_translation self) (_strafe self) (_rotation self)
    (<[name := val]> (attrs self)).

Definition getattr {S} (self : _TeleOpCommand) (name : string) : M S bool :=
  match attrs self !! name with
  | Some v => ret v
  | None => raise AttributeError
  end.

(** [_TeleOpCommand.__init__] *)
Definition _TeleOpCommand__init__ (translation strafe rotation : unit -> R)
    (field_relative drive_open_loop : bool) : _TeleOpCommand :=
  let self := mk_TeleOpCommand translation strafe rotation ∅ in
  let self := setattr self "field_relative" field_relative in
  setattr self "open_loop" drive_open_loop.

(** [SwerveDrive.teleop_command] *)
Definition teleop_command (translation strafe rotation : unit -> R)
    (field_relative drive_open_loop : bool) : _TeleOpCommand :=
  _TeleOpCommand__init__ translation strafe rotation field_relative drive_open_loop.

(** [execute] *)
Definition execute (self : _TeleOpCommand) : M SwerveDrive unit :=
  swerve <- get ;;
  let translation :=
    Translation2d_mul (mkTranslation2d (_translation self tt) (_strafe self tt))
      (max_velocity swerve) in
  let rotation := _rotation self tt * max_angular_velocity swerve in
  field_relative <- getattr self "field_relative" ;;
  open_loop <- getattr self "open_loop" ;;
  drive translation rotation field_relative open_loop.

(** Modelled from the spec: the [SendableBuilder] is wpiutil's.  A boolean
    property registered with it is a dashboard key with the getter and
    setter closures over the command. *)
Record BooleanProperty : Type := mkBooleanProperty
  { key : string;
    getter : _TeleOpCommand -> M _TeleOpCommand bool;
    setter : bool -> _TeleOpCommand -> _TeleOpCommand }.

(** [initSendable]: [builder] is the property table so far. *)
Definition initSendable (builder : list BooleanProperty) : list BooleanProperty :=
  builder ++
  [ mkBooleanProperty "Field Relative"
      (fun self => getattr self "field_relative")
      (fun val self => setattr self "field_relative" val);
    mkBooleanProperty "Open Loop"
      (fun self => getattr self "open_loop")
      (fun val self => setattr self "drive_open_loop" val) ].

(** Modelled from the spec: the dashboard side of a live-tunable property;
    a write to the property registered under [name] runs its setter. *)
Definition dashboard_write (builder : list BooleanProperty) (name : string)
    (val : bool) (self : _TeleOpCommand) : _TeleOpCommand :=
  match find (fun p => bool_decide (key p = name)) builder with
  | Some p => setter p val self
  | None => self
  end.

(** [toggle_field_relative] and [toggle_open_loop] *)
Definition toggle_field_relative : M _TeleOpCommand unit :=
  self <- get ;;
  v <- getattr self "field_relative" ;;
  put (setattr self "field_relative" (negb v)).

Definition toggle_open_loop : M _TeleOpCommand unit :=
  self <- get ;;
  v <- getattr self "open_loop" ;;
  put (setattr self "open_loop" (negb v)).

(** *** Trajectory following *)

Record TrajectoryFollowerParameters : Type := mkTrajectoryFollowerParameters
  { max_drive_velocity : R; theta_kP : R; xy_kP : R }.

(** Modelled from the spec: the trajectory library (pathplannerlib) is not
    in the source files.  [PIDConstants(kP)] has the other gains at the
    library's defaults; the controller is kept by its four constructor
    arguments; a path exposes its starting pose. *)
Record PIDConstants : Type := mkPIDConstants { kP : R }.

Record PPHolonomicDriveController : Type := mkPPHolonomicDriveController
  { translation_constants : PIDConstants;
    rotation_constants : PIDConstants;
    max_module_speed : R;
    drive_base_radius : R }.

Record PathPlannerPath : Type := mkPathPlannerPath
  { getPreviewStartingHolonomicPose : Pose2d }.

(** Modelled from the spec: [FollowPathCommand(...)] is pathplannerlib's,
    kept by its constructor arguments, with the command run before it
    starts when [beforeStarting] was applied. *)
Record FollowPathCommand : Type := mkFollowPathCommand
  { path_to_follow : PathPlannerPath;
    pose_supplier : SwerveDrive -> Pose2d;
    speeds_supplier : SwerveDrive -> ChassisSpeeds;
    output : ChassisSpeeds -> M SwerveDrive unit;
    controller : PPHolonomicDriveController;
    should_flip_path : unit -> bool;
    before_starting : option (M SwerveDrive unit) }.

(** Modelled from the spec: [command.beforeStarting(before)] runs [before]
    once, before path tracking begins. *)
Definition beforeStarting (command : FollowPathCommand)
    (before : M SwerveDrive unit) : FollowPathCommand :=
  mkFollowPathCommand (path_to_follow command) (pose_supplier command)
    (speeds_supplier command) (output command) (controller command)
    (should_flip_path command) (Some before).

(** Python's [max] over a tuple of floats: [ValueError] on the empty tuple,
    otherwise the running maximum, replaced when an item is greater. *)
Definition py_max {S} (items : list R) : M S R :=
  match items with
  | [] => raise ValueError
  | d :: ds => ret (foldl (fun m v => if Rlt_dec m v then v else m) d ds)
  end.

(** [greatest_distance_from_translations] *)
Definition greatest_distance_from_translations {S}
    (translations : list Translation2d) : M S R :=
  let distances := map (fun trans => sqrt (x trans ^ 2 + y trans ^ 2)) translations in
  py_max distances.

(** [follow_trajectory_command]; an omitted keyword argument is [None]. *)
Definition follow_trajectory_command (path : PathPlannerPath)
    (parameters : TrajectoryFollowerParameters)
    (first_path drive_open_loop : option bool)
    (flip_path : option (unit -> bool)) : M SwerveDrive FollowPathCommand :=
  let first_path := default false first_path in
  let drive_open_loop := default false drive_open_loop in
  let flip_path := default (fun _ => false) flip_path in
  self <- get ;;
  radius <- greatest_distance_from_translations (map placement (_modules self)) ;;
  let controller :=
    mkPPHolonomicDriveController
      (mkPIDConstants (xy_kP parameters))
      (mkPIDConstants (theta_kP parameters))
      (max_drive_velocity parameters)
      radius in
  let command :=
    mkFollowPathCommand path pose robot_relative_speeds
      (fun speeds => drive_dispatch (ByChassisSpeeds speeds drive_open_loop))
      controller flip_path None in
  if first_path
  then
    let initial_pose := getPreviewStartingHolonomicPose path in
    ret (beforeStarting command (reset_odometry initial_pose))
  else ret command.

End Swervepy.

(** ** src/swervelib/impl/system.py *)

Module Swervelib.
Import Wpimath Hardware Py Namespace.
#[local] Open Scope py_scope.

(** *** class SwerveDrive *)

Record SwerveDrive : Type := mkSwerveDrive
  { _modules : list SwerveModule;
    _gyro : Gyro;
    _vision_pose_callback : Pose2d -> option Pose2d;
    max_velocity : R;
    max_angular_velocity : R;
    _kinematics : Kinematics;
    _odometry : PoseEstimator }.

Definition set_odometry (o : PoseEstimator) (self : SwerveDrive) : SwerveDrive :=
  mkSwerveDrive (_modules self) (_gyro self) (_vision_pose_callback self)
    (max_velocity self) (max_angular_velocity self) (_kinematics self) o.

(** [module_positions] property *)
Definition module_positions (self : SwerveDrive) : list SwerveModulePosition :=
  map module_position (_modules self).

(** [pose] property *)
Definition pose (self : SwerveDrive) : Pose2d :=
  getEstimatedPosition (_odometry self).

(** The default of the [vision_pose_callback] parameter: [lambda _: None]. *)
Definition default_vision_pose_callback : Pose2d -> option Pose2d :=
  fun _ => None.

(** [__init__]; an omitted [vision_pose_callback] is [None] here. *)
Definition __init__ (wpimath : Classes)
    (modules : list SwerveModule) (gyro : Gyro)
    (max_velocity_ max_angular_velocity_ : R)
    (vision_pose_callback : option (Pose2d -> option Pose2d))
    : Run unit (SwerveDrive) :=
  let callback := default default_vision_pose_callback vision_pose_callback in
  (call (Sleep 1) ;;
   for_each (range (length modules)) (fun i => call (ModuleReset i)) ;;
   call GyroZeroHeading ;;
   let gyro' := Gyro_zero_heading gyro in
   k <- getattr_class (kinematics_class wpimath (length modules)) ;;
   let kinematics := k (map placement modules) in
   f <- getattr_class (estimator_class wpimath (length modules)) ;;
   let odometry :=
     PoseEstimator_new f kinematics (heading gyro')
       (map module_position modules) Pose2d_origin in
   for_each (imap (fun i (_ : SwerveModule) => i) modules)
     (fun i => call (PutData ("Module " +:+ pretty i))) ;;
   ret (mkSwerveDrive modules gyro' callback max_velocity_
          max_angular_velocity_ kinematics odometry)) tt.

(** [periodic] *)
Definition periodic (fpga_timestamp : R) : M SwerveDrive unit :=
  self <- get ;;
  let '(_, odometry) :=
    update (heading (_gyro self)) (module_positions self) (_odometry self) in
  put (set_odometry odometry self) ;;
  self <- get ;;
  call (VisionPoseCallback (pose self)) ;;
  let vision_pose := _vision_pose_callback self (pose self) in
  (* [if vision_pose:] a pose object is true, [None] is false *)
  match vision_pose with
  | Some vision =>
      modify (fun self =>
        set_odometry (addVisionMeasurement vision fpga_timestamp (_odometry self)) self)
  | None => ret tt
  end.

(** [desire_module_states]: the loop runs over [range(4)]. *)
Definition desire_module_states (states : list SwerveModuleState)
    (open_loop rotate_in_place : option bool) : M SwerveDrive unit :=
  let open_loop := default false open_loop in
  let rotate_in_place := default true rotate_in_place in
  self <- get ;;
  let swerve_module_states := desaturateWheelSpeeds states (max_velocity self) in
  for_each (range 4) (fun i =>
    self <- get ;;
    _ <- index (_modules self) i ;;
    state <- index swerve_module_states i ;;
    call (ModuleDesireState i state open_loop rotate_in_place)).

(** [drive] *)
Definition drive (translation : Translation2d) (rotation : R)
    (field_relative open_loop : bool) : M SwerveDrive unit :=
  self <- get ;;
  let speeds :=
    if field_relative
    then fromFieldRelativeSpeeds (x translation) (y translation) rotation
           (heading (_gyro self))
    else mkChassisSpeeds (x translation) (y translation) rotation in
  let swerve_module_states := toSwerveModuleStates (_kinematics self) speeds in
  desire_module_states swerve_module_states (Some open_loop) (Some false).

(** [reset_odometry] *)
Definition reset_odometry (pose_ : Pose2d) : M SwerveDrive unit :=
  modify (fun self =>
    set_odometry
      (resetPosition (heading (_gyro self)) (module_positions self) pose_
         (_odometry self)) self).

(** *** class SwerveDrive._TeleOpCommand *)

Record _TeleOpCommand : Type := mk_TeleOpCommand
  { _translation : unit -> R;
    _strafe : unit -> R;
    _rotation : unit -> R;
    attrs : gmap string bool }.

Definition setattr (self : _TeleOpCommand) (name : string) (val : bool)
    : _TeleOpCommand :=
  mk_TeleOpCommand (_translation self) (_strafe self) (_rotation self)
    (<[name := val]> (attrs self)).

Definition getattr {S} (self : _TeleOpCommand) (name : string) : M S bool :=
  match attrs self !! name with
  | Some v => ret v
  | None => raise AttributeError
  end.

(** [_TeleOpCommand.__init__] *)
Definition _TeleOpCommand__init__ (translation strafe rotation : unit -> R)
    (field_relative open_loop : bool) : _TeleOpCommand :=
  let self := mk_TeleOpCommand translation strafe rotation ∅ in
  let self := setattr self "field_relative" field_relative in
  setattr self "open_loop" open_loop.

(** [execute] *)
Definition execute (self : _TeleOpCommand) : M SwerveDrive unit :=
  swerve <- get ;;
  let translation :=
    Translation2d_mul (mkTranslation2d (_translation self tt) (_strafe self tt))
      (max_velocity swerve) in
  let rotation := _rotation self tt * max_angular_velocity swerve in
  field_relative <- getattr self "field_relative" ;;
  open_loop <- getattr self "open_loop" ;;
  drive translation rotation field_relative open_loop.

Record BooleanProperty : Type := mkBooleanProperty
  { key : string;
    getter : _TeleOpCommand -> M _TeleOpCommand bool;
    setter : bool -> _TeleOpCommand -> _TeleOpCommand }.

(** [initSendable] *)
Definition initSendable (builder : list BooleanProperty) : list BooleanProperty :=
  builder ++
  [ mkBooleanProperty "Field Relative"
      (fun self => getattr self "field_relative")
      (fun val self => setattr self "field_relative" val);
    mkBooleanProperty "Open Loop"
      (fun self => getattr self "open_loop")
      (fun val self => setattr self "open_loop" val) ].

Definition dashboard_write (builder : list BooleanProperty) (name : string)
    (val : bool) (self : _TeleOpCommand) : _TeleOpCommand :=
  match find (fun p => bool_decide (key p = name)) builder with
  | Some p => setter p val self
  | None => self
  end.

Definition toggle_field_relative : M _TeleOpCommand unit :=
  self <- get ;;
  v <- getattr self "field_relative" ;;
  put (setattr self "field_relative" (negb v)).

Definition toggle_open_loop : M _TeleOpCommand unit :=
  self <- get ;;
  v <- getattr self "open_loop" ;;
  put (setattr self "open_loop" (negb v)).

End Swervelib.

(** ** What a run commanded, and who may act between cycles *)

Module Observe.
Import Wpimath Hardware Py.

(** The module states carried by the [desire_state] calls of a log, in
    program order. *)
Definition commanded_states (log : list Call) : list SwerveModuleState :=
  omap (fun c =>
          match c with
          | ModuleDesireState _ s _ _ => Some s
          | _ => None
          end) log.

(** The indices of the modules a log sent [desire_state] to, in program
    order. *)
Definition commanded_modules (log : list Call) : list nat :=
  omap (fun c =>
          match c with
          | ModuleDesireState i _ _ _ => Some i
          | _ => None
          end) log.

(** The poses the vision callback was invoked with in a log, one per
    invocation, in program order. *)
Definition callback_invocations (log : list Call) : list Pose2d :=
  omap (fun c =>
          match c with
          | VisionPoseCallback p => Some p
          | _ => None
          end) log.

(** One pass of the loop body both [desire_module_states] share: look up
    module [i], look up state [i], tell the module.  [mods] reads the module
    tuple off the drivetrain object. *)
Definition tell_module {S} (mods : S -> list SwerveModule)
    (swerve_module_states : list SwerveModuleState)
    (open_loop rotate_in_place : bool) (i : nat) : M S unit :=
  (self <- get ;;
   _ <- index (mods self) i ;;
   state <- index swerve_module_states i ;;
   call (ModuleDesireState i state open_loop rotate_in_place))%py.

(** The log the fan-out is meant to leave: module [i] told state [i]. *)
Definition fan_out (states : list SwerveModuleState)
    (open_loop rotate_in_place : bool) : list Call :=
  imap (fun i s => ModuleDesireState i s open_loop rotate_in_place) states.

(** The chassis speed a subsystem.py [drive] call composes, by overload and
    frame, and the open-loop flag it carries. *)
Definition composed_speeds (heading_ : Rotation2d) (args : Swervepy.DriveArgs)
    : ChassisSpeeds :=
  match args with
  | Swervepy.ByTranslation t r true _ =>
      fromFieldRelativeSpeeds (x t) (y t) r heading_
  | Swervepy.ByTranslation t r false _ => mkChassisSpeeds (x t) (y t) r
  | Swervepy.ByChassisSpeeds cs _ => mkChassisSpeeds (vx cs) (vy cs) (omega cs)
  end.

Definition open_loop_of (args : Swervepy.DriveArgs) : bool :=
  match args with
  | Swervepy.ByTranslation _ _ _ ol => ol
  | Swervepy.ByChassisSpeeds _ ol => ol
  end.

End Observe.

(** ** The life of a drivetrain: what the scheduler, the commands and the
    hardware may do to it, in any order *)

Module Scheduler.
Import Wpimath Hardware Py.

(** New read-backs for module [i], placement kept. *)
Definition read_back (readings : list (SwerveModulePosition * SwerveModuleState))
    (i : nat) (m : SwerveModule) : SwerveModule :=
  match readings !! i with
  | Some r => mkSwerveModule (placement m) (fst r) (snd r)
  | None => m
  end.

Inductive PyOp : Type :=
| PyPeriodic (fpga_timestamp : R)
| PyDrive (args : Swervepy.DriveArgs)
| PyDesireModuleStates (states : list SwerveModuleState)
                       (drive_open_loop rotate_in_place : option bool)
| PyExecute (command : Swervepy._TeleOpCommand)
| PyResetOdometry (pose : Pose2d)
| PyResetModules
| PyZeroHeading
| PySense (g : Gyro) (readings : list (SwerveModulePosition * SwerveModuleState)).

Definition py_sense (g : Gyro)
    (readings : list (SwerveModulePosition * SwerveModuleState))
    (self : Swervepy.SwerveDrive) : Swervepy.SwerveDrive :=
  Swervepy.mkSwerveDrive (imap (read_back readings) (Swervepy._modules self)) g
    (Swervepy._vision_pose_callback self) (Swervepy.max_velocity self)
    (Swervepy.max_angular_velocity self) (Swervepy._kinematics self)
    (Swervepy._odometry self) (Swervepy.field self).

Definition py_step (op : PyOp) : M Swervepy.SwerveDrive unit :=
  match op with
  | PyPeriodic t => Swervepy.periodic t
  | PyDrive args => Swervepy.drive_dispatch args
  | PyDesireModuleStates states ol rip => Swervepy.desire_module_states states ol rip
  | PyExecute command => Swervepy.execute command
  | PyResetOdometry p => Swervepy.reset_odometry p
  | PyResetModules => Swervepy.reset_modules
  | PyZeroHeading => Swervepy.zero_heading
  | PySense g readings => modify (py_sense g readings)
  end.

(** The drivetrain after a history of operations; an operation that raised
    leaves it as it was when the exception came. *)
Definition py_after (ops : list PyOp) (self : Swervepy.SwerveDrive)
    : Swervepy.SwerveDrive :=
  foldl (fun s op => final (py_step op s)) self ops.

Inductive LibOp : Type :=
| LibPeriodic (fpga_timestamp : R)
| LibDrive (translation : Translation2d) (rotation : R)
           (field_relative open_loop : bool)
| LibDesireModuleStates (states : list SwerveModuleState)
                        (open_loop rotate_in_place : option bool)
| LibExecute (command : Swervelib._TeleOpCommand)
| LibResetOdometry (pose : Pose2d)
| LibSense (g : Gyro) (readings : list (SwerveModulePosition * SwerveModuleState)).

Definition lib_sense (g : Gyro)
    (readings : list (SwerveModulePosition * SwerveModuleState))
    (self : Swervelib.SwerveDrive) : Swervelib.SwerveDrive :=
  Swervelib.mkSwerveDrive (imap (read_back readings) (Swervelib._modules self)) g
    (Swervelib._vision_pose_callback self) (Swervelib.max_velocity self)
    (Swervelib.max_angular_velocity self) (Swervelib._kinematics self)
    (Swervelib._odometry self).

Definition lib_step (op : LibOp) : M Swervelib.SwerveDrive unit :=
  match op with
  | LibPeriodic t => Swervelib.periodic t
  | LibDrive t r fr ol => Swervelib.drive t r fr ol
  | LibDesireModuleStates states ol rip => Swervelib.desire_module_states states ol rip
  | LibExecute command => Swervelib.execute command
  | LibResetOdometry p => Swervelib.reset_odometry p
  | LibSense g readings => modify (lib_sense g readings)
  end.

Definition lib_after (ops : list LibOp) (self : Swervelib.SwerveDrive)
    : Swervelib.SwerveDrive :=
  foldl (fun s op => final (lib_step op s)) self ops.

(** The operations that are neither [periodic] nor [reset_odometry]. *)
Definition py_leaves_estimator (op : PyOp) : bool :=
  match op with
  | PyPeriodic _ | PyResetOdometry _ => false
  | _ => true
  end.

Definition lib_leaves_estimator (op : LibOp) : bool :=
  match op with
  | LibPeriodic _ | LibResetOdometry _ => false
  | _ => true
  end.

(** The vision corrections the estimator accepted over a history. *)
Definition py_corrections (self : Swervepy.SwerveDrive) : list (Pose2d * R) :=
  corrections (Swervepy._odometry self).

Definition lib_corrections (self : Swervelib.SwerveDrive) : list (Pose2d * R) :=
  corrections (Swervelib._odometry self).

End Scheduler.

(** ** Concrete rigs *)

Module Rig.
Import Wpimath Hardware Py Namespace.

(** A stand-in kinematics class: every module is sent the chassis' forward
    speed, facing forward. *)
Definition forward_only (ps : list Translation2d) : Kinematics :=
  mkKinematics ps
    (fun cs => map (fun _ => mkSwerveModuleState (vx cs) Rotation2d_zero) ps)
    (fun _ => mkChassisSpeeds 0 0 0).

(** A stand-in filter: wheel odometry leaves the pose where it was, a vision
    pose replaces it. *)
Definition hold_pose : Filter :=
  mkFilter (fun p _ _ _ _ => p) (fun _ v _ => v).

(** Classes for two, three, four and six modules. *)
Definition has_class (n : nat) : bool :=
  bool_decide (n ∈ [2; 3; 4; 6]%nat).

Definition wpimath_classes : Classes :=
  mkClasses (fun n => if has_class n then Some forward_only else None)
            (fun n => if has_class n then Some hold_pose else None).

Definition module_at (px py : R) : SwerveModule :=
  mkSwerveModule (mkTranslation2d px py)
    (mkSwerveModulePosition 0 Rotation2d_zero)
    (mkSwerveModuleState 0 Rotation2d_zero).

Definition triangle : list SwerveModule :=
  [module_at 1 0; module_at (-1) 1; module_at (-1) (-1)].

Definition square : list SwerveModule :=
  [module_at 3 3; module_at 3 (-3); module_at (-3) 3; module_at (-3) (-3)].

Definition hexagon : list SwerveModule :=
  [module_at 2 0; module_at 1 2; module_at (-1) 2;
   module_at (-2) 0; module_at (-1) (-2); module_at 1 (-2)].

Definition gyro : Gyro := mkGyro Rotation2d_zero.

Definition states_of (speeds : list R) : list SwerveModuleState :=
  map (fun v => mkSwerveModuleState v Rotation2d_zero) speeds.

(** The drivetrains [SwerveDrive(modules, gyro, 4 m/s, 6 rad/s)] builds,
    field by field. *)
Definition swervepy_drive (modules : list SwerveModule) : Swervepy.SwerveDrive :=
  Swervepy.mkSwerveDrive modules gyro Swervepy.default_vision_pose_callback
    4 6 (forward_only (map placement modules))
    (PoseEstimator_new hold_pose (forward_only (map placement modules))
       Rotation2d_zero (map module_position modules) Pose2d_origin)
    None.

Definition swervelib_drive (modules : list SwerveModule) : Swervelib.SwerveDrive :=
  Swervelib.mkSwerveDrive modules gyro Swervelib.default_vision_pose_callback
    4 6 (forward_only (map placement modules))
    (PoseEstimator_new hold_pose (forward_only (map placement modules))
       Rotation2d_zero (map module_position modules) Pose2d_origin).

(** A teleoperation command with idle sticks, robot-relative, closed loop. *)
Definition idle : unit -> R := fun _ => 0.

Definition swervepy_teleop : Swervepy._TeleOpCommand :=
  Swervepy.teleop_command idle idle idle false false.

Definition swervelib_teleop : Swervelib._TeleOpCommand :=
  Swervelib._TeleOpCommand__init__ idle idle idle false false.

End Rig.

(** ** src/swervelib/impl/system.py, class CoaxialSwerveModule *)

Module Coaxial.

(** Modelled from the spec: the abstract [CoaxialDriveComponent] and
    [CoaxialAzimuthComponent] are not in the source files.  The module reads
    their instantaneous read-backs; what it tells them is recorded as
    component calls. *)
Record CoaxialDriveComponent : Type := mkCoaxialDriveComponent
  { velocity : R; distance : R }.

Record CoaxialAzimuthComponent : Type := mkCoaxialAzimuthComponent
  { angle : Wpimath.Rotation2d; rotational_velocity : R }.

Inductive ComponentCall : Type :=
| FollowVelocityOpen (velocity_ : R)
| FollowVelocityClosed (velocity_ : R)
| FollowAngle (angle_ : Wpimath.Rotation2d)
| DriveReset
| AzimuthReset.

(** The instance: the two components, the placement, and the two
    last-commanded values, which start at the class attributes [0] and
    [Rotation2d.fromDegrees(0)]. *)
Record CoaxialSwerveModule : Type := mkCoaxialSwerveModule
  { _drive : CoaxialDriveComponent;
    _azimuth : CoaxialAzimuthComponent;
    placement : Wpimath.Translation2d;
    last_commanded_drive_velocity : R;
    last_commanded_azimuth_angle : Wpimath.Rotation2d }.

(** [__init__] *)
Definition __init__ (drive : CoaxialDriveComponent)
    (azimuth : CoaxialAzimuthComponent) (placement_ : Wpimath.Translation2d)
    : CoaxialSwerveModule :=
  mkCoaxialSwerveModule drive azimuth placement_ 0 Wpimath.Rotation2d_zero.

(** A method run: the module afterwards and the component calls made. *)
Definition Act : Type := CoaxialSwerveModule -> CoaxialSwerveModule * list ComponentCall.

(** [desire_drive_velocity] *)
Definition desire_drive_velocity (velocity_ : R) (open_loop : bool) : Act :=
  fun self =>
    let self :=
      mkCoaxialSwerveModule (_drive self) (_azimuth self) (placement self)
        velocity_ (last_commanded_azimuth_angle self) in
    if open_loop
    then (self, [FollowVelocityOpen velocity_])
    else (self, [FollowVelocityClosed velocity_]).

(** [desire_azimuth_angle] *)
Definition desire_azimuth_angle (angle_ : Wpimath.Rotation2d) : Act :=
  fun self =>
    (mkCoaxialSwerveModule (_drive self) (_azimuth self) (placement self)
       (last_commanded_drive_velocity self) angle_,
     [FollowAngle angle_]).

(** [reset] *)
Definition reset : Act := fun self => (self, [DriveReset; AzimuthReset]).

(** The read-only properties. *)
Definition drive_velocity (self : CoaxialSwerveModule) : R := velocity (_drive self).
Definition drive_distance (self : CoaxialSwerveModule) : R := distance (_drive self).
Definition azimuth_angle (self : CoaxialSwerveModule) : Wpimath.Rotation2d :=
  angle (_azimuth self).
Definition azimuth_velocity (self : CoaxialSwerveModule) : R :=
  rotational_velocity (_azimuth self).

(** A double property registered with the builder: key, getter, setter. *)
Record DoubleProperty : Type := mkDoubleProperty
  { key : string;
    getter : CoaxialSwerveModule -> R;
    setter : R -> CoaxialSwerveModule -> CoaxialSwerveModule }.

Record SendableBuilder : Type := mkSendableBuilder
  { smart_dashboard_type : option string;
    double_properties : list DoubleProperty }.

Definition setSmartDashboardType (type_ : string) (b : SendableBuilder)
    : SendableBuilder :=
  mkSendableBuilder (Some type_) (double_properties b).

Definition addDoubleProperty (key_ : string)
    (getter_ : CoaxialSwerveModule -> R)
    (setter_ : R -> CoaxialSwerveModule -> CoaxialSwerveModule)
    (b : SendableBuilder) : SendableBuilder :=
  mkSendableBuilder (smart_dashboard_type b)
    (double_properties b ++ [mkDoubleProperty key_ getter_ setter_]).

(** [initSendable]; [degrees] is wpimath's [Rotation2d.degrees], taken as it
    comes.  Every setter is [lambda _: None]. *)
Definition initSendable (degrees : Wpimath.Rotation2d -> R)
    (builder : SendableBuilder) : SendableBuilder :=
  let builder := setSmartDashboardType "CoaxialSwerveModule" builder in
  let builder := addDoubleProperty "Drive Velocity (mps)"
    (fun self => velocity (_drive self)) (fun _ self => self) builder in
  let builder := addDoubleProperty "Drive Distance (m)"
    (fun self => distance (_drive self)) (fun _ self => self) builder in
  let builder := addDoubleProperty "Azimuth Velocity (radps)"
    (fun self => rotational_velocity (_azimuth self)) (fun _ self => self) builder in
  let builder := addDoubleProperty "Azimuth Position (rad)"
    (fun self => Wpimath.radians (angle (_azimuth self))) (fun _ self => self) builder in
  let builder := addDoubleProperty "Azimuth Position (deg)"
    (fun self => degrees (angle (_azimuth self))) (fun _ self => self) builder in
  let builder := addDoubleProperty "Desired Drive Velocity (mps)"
    (fun self => last_commanded_drive_velocity self) (fun _ self => self) builder in
  let builder := addDoubleProperty "Desired Azimuth Position (rad)"
    (fun self => Wpimath.radians (last_commanded_azimuth_angle self))
    (fun _ self => self) builder in
  addDoubleProperty "Desired Azimuth Position (deg)"
    (fun self => degrees (last_commanded_azimuth_angle self))
    (fun _ self => self) builder.

Definition empty_builder : SendableBuilder := mkSendableBuilder None [].

(** The dashboard side: reading and writing the property under a key. *)
Definition dashboard_read (b : SendableBuilder) (name : string)
    (self : CoaxialSwerveModule) : option R :=
  (fun p => getter p self) <$> find (fun p => bool_decide (key p = name))
                                    (double_properties b).

Definition dashboard_write (b : SendableBuilder) (name : string) (val : R)
    (self : CoaxialSwerveModule) : CoaxialSwerveModule :=
  match find (fun p => bool_decide (key p = name)) (double_properties b) with
  | Some p => setter p val self
  | None => self
  end.

(** What may happen to a module, in any order, and the module and the
    component calls after a history. *)
Inductive Op : Type :=
| DesireDriveVelocity (velocity_ : R) (open_loop : bool)
| DesireAzimuthAngle (angle_ : Wpimath.Rotation2d)
| Reset
| DashboardWrite (name : string) (val : R).

Definition step (degrees : Wpimath.Rotation2d -> R) (op : Op) : Act :=
  match op with
  | DesireDriveVelocity v ol => desire_drive_velocity v ol
  | DesireAzimuthAngle a => desire_azimuth_angle a
  | Reset => reset
  | DashboardWrite name val =>
      fun self =>
        (dashboard_write (initSendable degrees empty_builder) name val self, [])
  end.

Fixpoint after (degrees : Wpimath.Rotation2d -> R) (ops : list Op) : Act :=
  fun self =>
    match ops with
    | [] => (self, [])
    | op :: ops' =>
        let '(self1, calls1) := step degrees op self in
        let '(self2, calls2) := after degrees ops' self1 in
        (self2, calls1 ++ calls2)
    end.

(** The velocity of the last drive command of a history, the angle of the
    last azimuth command, and the follower calls its commands ask for. *)
Fixpoint last_drive_velocity (initial : R) (ops : list Op) : R :=
  match ops with
  | [] => initial
  | DesireDriveVelocity v _ :: ops' => last_drive_velocity v ops'
  | _ :: ops' => last_drive_velocity initial ops'
  end.

Fixpoint last_azimuth_angle (initial : Wpimath.Rotation2d) (ops : list Op)
    : Wpimath.Rotation2d :=
  match ops with
  | [] => initial
  | DesireAzimuthAngle a :: ops' => last_azimuth_angle a ops'
  | _ :: ops' => last_azimuth_angle initial ops'
  end.

Definition calls_asked (op : Op) : list ComponentCall :=
  match op with
  | DesireDriveVelocity v true => [FollowVelocityOpen v]
  | DesireDriveVelocity v false => [FollowVelocityClosed v]
  | DesireAzimuthAngle a => [FollowAngle a]
  | Reset => [DriveReset; AzimuthReset]
  | DashboardWrite _ _ => []
  end.

End Coaxial.

(** ** The operator's side of a teleoperation command *)

Module Operator.
Import Py.

(** What may happen to a command between cycles: the two toggles and
    dashboard writes to any key. *)
Inductive Event : Type :=
| ToggleFieldRelative
| ToggleOpenLoop
| DashboardWrite (name : string) (val : bool).

Definition py_event (e : Event) (cmd : Swervepy._TeleOpCommand)
    : Swervepy._TeleOpCommand :=
  match e with
  | ToggleFieldRelative => final (Swervepy.toggle_field_relative cmd)
  | ToggleOpenLoop => final (Swervepy.toggle_open_loop cmd)
  | DashboardWrite name val =>
      Swervepy.dashboard_write (Swervepy.initSendable []) name val cmd
  end.

Definition py_events (es : list Event) (cmd : Swervepy._TeleOpCommand)
    : Swervepy._TeleOpCommand :=
  foldl (fun c e => py_event e c) cmd es.

Definition lib_event (e : Event) (cmd : Swervelib._TeleOpCommand)
    : Swervelib._TeleOpCommand :=
  match e with
  | ToggleFieldRelative => final (Swervelib.toggle_field_relative cmd)
  | ToggleOpenLoop => final (Swervelib.toggle_open_loop cmd)
  | DashboardWrite name val =>
      Swervelib.dashboard_write (Swervelib.initSendable []) name val cmd
  end.

Definition lib_events (es : list Event) (cmd : Swervelib._TeleOpCommand)
    : Swervelib._TeleOpCommand :=
  foldl (fun c e => lib_event e c) cmd es.

(** The dashboard reading the property registered under a key. *)
Definition py_dashboard_read (builder : list Swervepy.BooleanProperty)
    (name : string) (cmd : Swervepy._TeleOpCommand) : option (Exn + bool) :=
  (fun p => outcome (Swervepy.getter p cmd cmd))
    <$> find (fun p => bool_decide (Swervepy.key p = name)) builder.

Definition lib_dashboard_read (builder : list Swervelib.BooleanProperty)
    (name : string) (cmd : Swervelib._TeleOpCommand) : option (Exn + bool) :=
  (fun p => outcome (Swervelib.getter p cmd cmd))
    <$> find (fun p => bool_decide (Swervelib.key p = name)) builder.

End Operator.

(** ** Facts about the monad and the loop *)

Section Loop.
Import Wpimath Hardware Py Observe.
#[local] Open Scope py_scope.

Context {S : Type}.

Lemma bind_ret_l {A B} (a : A) (k : A -> M S B) (s : S) :
  bind (ret a) k s = k a s.
Proof. unfold bind, ret; simpl. destruct (k a s); reflexivity. Qed.

Lemma bind_get {B} (k : S -> M S B) (s : S) :
  bind get k s = k s s.
Proof. unfold bind, get; simpl. destruct (k s s); reflexivity. Qed.

Lemma index_Some {A} (t : list A) (i : nat) (a : A) (s : S) :
  t !! i = Some a -> index t i s = mkRun [] s (inr a).
Proof. intros H. unfold index. rewrite H. reflexivity. Qed.

Lemma index_None {A} (t : list A) (i : nat) (s : S) :
  t !! i = None -> index (A := A) t i s = mkRun [] s (inl IndexError).
Proof. intros H. unfold index. rewrite H. reflexivity. Qed.

End Loop.

Section FanOut.
Import Wpimath Hardware Py Observe.
#[local] Open Scope py_scope.

Context {S : Type} (mods : S -> list SwerveModule).
Variables (sms : list SwerveModuleState) (ol rip : bool).

Lemma tell_module_ok (i : nat) (m : SwerveModule) (st : SwerveModuleState) (s : S) :
  mods s !! i = Some m -> sms !! i = Some st ->
  tell_module mods sms ol rip i s = mkRun [ModuleDesireState i st ol rip] s (inr tt).
Proof.
  intros Hm Hs. unfold tell_module. rewrite bind_get.
  unfold bind. rewrite (index_Some _ _ _ _ Hm). simpl.
  rewrite (index_Some _ _ _ _ Hs). reflexivity.
Qed.

Lemma tell_module_no_module (i : nat) (s : S) :
  mods s !! i = None -> tell_module mods sms ol rip i s = mkRun [] s (inl IndexError).
Proof.
  intros Hm. unfold tell_module. rewrite bind_get.
  unfold bind. rewrite (index_None _ _ _ Hm). reflexivity.
Qed.

Lemma tell_module_no_state (i : nat) (m : SwerveModule) (s : S) :
  mods s !! i = Some m -> sms !! i = None ->
  tell_module mods sms ol rip i s = mkRun [] s (inl IndexError).
Proof.
  intros Hm Hs. unfold tell_module. rewrite bind_get.
  unfold bind. rewrite (index_Some _ _ _ _ Hm). simpl.
  rewrite (index_None _ _ _ Hs). reflexivity.
Qed.

(** While both tuples have an entry at every index visited, the loop tells
    each visited module its own state, raises nothing and leaves the
    drivetrain as it was. *)
Lemma loop_in_range (n k : nat) (s : S) :
  (k + n <= length (mods s))%nat -> (k + n <= length sms)%nat ->
  for_each (seq k n) (tell_module mods sms ol rip) s =
  mkRun (imap (fun i st => ModuleDesireState (k + i) st ol rip)
              (take n (drop k sms))) s (inr tt).
Proof.
  revert k. induction n as [|n IH]; intros k Hm Hs.
  - reflexivity.
  - destruct (lookup_lt_is_Some_2 (mods s) k ltac:(lia)) as [m Hmk].
    destruct (lookup_lt_is_Some_2 sms k ltac:(lia)) as [st Hsk].
    cbn [seq for_each]. unfold bind at 1.
    rewrite (tell_module_ok k m st s Hmk Hsk). cbn [outcome final calls].
    rewrite (IH (Datatypes.S k)) by lia. cbn [outcome final calls].
    f_equal.
    rewrite (drop_S _ _ _ Hsk). cbn [take imap app]. f_equal.
    + f_equal. lia.
    + apply imap_ext. intros i x _. simpl. f_equal. lia.
Qed.

(** The loop stops with [IndexError] at the first index past the module
    tuple. *)
Lemma loop_past_modules (n k : nat) (s : S) :
  (length (mods s) <= k)%nat ->
  for_each (seq k (Datatypes.S n)) (tell_module mods sms ol rip) s
  = mkRun [] s (inl IndexError).
Proof.
  intros Hk. cbn [seq for_each]. unfold bind.
  rewrite (tell_module_no_module k s) by (apply lookup_ge_None_2; exact Hk).
  reflexivity.
Qed.

Lemma for_each_app {A} (l1 l2 : list A) (f : A -> M S unit) (s : S) :
  for_each (l1 ++ l2) f s = bind (for_each l1 f) (fun _ => for_each l2 f) s.
Proof.
  revert s. induction l1 as [|a l1 IH]; intros s.
  - cbn [app for_each]. rewrite bind_ret_l. reflexivity.
  - cbn [app for_each]. unfold bind at 1 2 3.
    destruct (f a s) as [c1 s1 [e|[]]]; cbn [outcome final calls].
    + reflexivity.
    + rewrite IH. unfold bind.
      destruct (for_each l1 f s1) as [c2 s2 [e|[]]]; cbn [outcome final calls].
      * reflexivity.
      * rewrite app_assoc. reflexivity.
Qed.

(** One visit of the loop body tells module [i] state [i], or raises
    before telling anything; the drivetrain is as before either way. *)
Lemma tell_module_cases (i : nat) (s : S) :
  (exists st, sms !! i = Some st /\
     tell_module mods sms ol rip i s = mkRun [ModuleDesireState i st ol rip] s (inr tt))
  \/ tell_module mods sms ol rip i s = mkRun [] s (inl IndexError).
Proof.
  destruct (mods s !! i) as [m|] eqn:Hm.
  - destruct (sms !! i) as [st|] eqn:Hs.
    + left. exists st. split; [reflexivity | apply (tell_module_ok i m st s Hm Hs)].
    + right. apply (tell_module_no_state i m s Hm Hs).
  - right. apply (tell_module_no_module i s Hm).
Qed.

(** Whatever the tuple lengths, every call the loop makes is a
    [desire_state] to a visited index, with the state at that index and the
    two flags; and the loop leaves the drivetrain as it was. *)
Lemma loop_calls (idx : list nat) (s : S) (c : Call) :
  In c (calls (for_each idx (tell_module mods sms ol rip) s)) ->
  exists i st, c = ModuleDesireState i st ol rip /\ sms !! i = Some st /\ In i idx.
Proof.
  induction idx as [|a idx IH]; cbn [for_each]; intros Hin.
  - destruct Hin.
  - unfold bind in Hin.
    destruct (tell_module_cases a s) as [[st [Hst E]] | E]; rewrite E in Hin;
      cbn [outcome final calls] in Hin.
    + destruct Hin as [<- | Hin].
      * exists a, st. split; [reflexivity|]. split; [exact Hst | left; reflexivity].
      * destruct (IH Hin) as [i [st' [Hc [Hs Hi]]]].
        exists i, st'. split; [exact Hc|]. split; [exact Hs | right; exact Hi].
    + destruct Hin.
Qed.

Lemma loop_final (idx : list nat) (s : S) :
  final (for_each idx (tell_module mods sms ol rip) s) = s.
Proof.
  induction idx as [|a idx IH]; cbn [for_each]; [reflexivity|].
  unfold bind.
  destruct (tell_module_cases a s) as [[st [Hst ->]] | ->]; cbn [outcome final calls].
  - exact IH.
  - reflexivity.
Qed.

End FanOut.

(** ** Facts about the desaturation *)

Section Desaturation.
Import Wpimath.

Lemma max_abs_speed_nonneg (states : list SwerveModuleState) :
  0 <= max_abs_speed states.
Proof.
  destruct states as [|s l]; simpl.
  - lra.
  - eapply Rle_trans; [apply Rabs_pos | apply Rmax_l].
Qed.

Lemma max_abs_speed_ge (states : list SwerveModuleState) (s : SwerveModuleState) :
  In s states -> Rabs (speed s) <= max_abs_speed states.
Proof.
  induction states as [|a l IH]; simpl; intros Hin.
  - contradiction.
  - destruct Hin as [-> | Hin].
    + apply Rmax_l.
    + eapply Rle_trans; [apply IH, Hin | apply Rmax_r].
Qed.

Lemma max_abs_speed_attained (states : list SwerveModuleState) :
  states <> [] ->
  exists s, In s states /\ max_abs_speed states = Rabs (speed s).
Proof.
  induction states as [|a l IH]; intros Hne; [congruence|].
  destruct l as [|b l'].
  - exists a. split; [left; reflexivity|]. simpl.
    apply Rmax_left, Rabs_pos.
  - destruct IH as [s [Hin Hs]]; [discriminate|].
    change (max_abs_speed (a :: b :: l'))
      with (Rmax (Rabs (speed a)) (max_abs_speed (b :: l'))).
    destruct (Rle_dec (max_abs_speed (b :: l')) (Rabs (speed a))) as [Hle|Hgt].
    + exists a. split; [left; reflexivity | apply Rmax_left, Hle].
    + exists s. split; [right; exact Hin|].
      rewrite Rmax_right by lra. exact Hs.
Qed.

Lemma exceeds_true (c : R) (s : SwerveModuleState) :
  exceeds c s = true <-> c < Rabs (speed s).
Proof.
  unfold exceeds. destruct (Rlt_dec c (Rabs (speed s))); split; intros H;
    try reflexivity; try assumption; try discriminate; contradiction.
Qed.

(** Some module exceeds the ceiling exactly when the largest magnitude
    does. *)
Lemma some_exceeds_iff (c : R) (states : list SwerveModuleState) :
  states <> [] ->
  existsb (exceeds c) states = true <-> c < max_abs_speed states.
Proof.
  intros Hne. rewrite existsb_exists. split.
  - intros [s [Hin Hs]]. apply exceeds_true in Hs.
    eapply Rlt_le_trans; [exact Hs | apply max_abs_speed_ge, Hin].
  - intros Hlt. destruct (max_abs_speed_attained states Hne) as [s [Hin Hs]].
    exists s. split; [exact Hin|]. apply exceeds_true. rewrite <- Hs. exact Hlt.
Qed.

Lemma desaturate_above (c : R) (states : list SwerveModuleState) :
  c < max_abs_speed states ->
  desaturateWheelSpeeds states c =
  map (scale_speed (c / max_abs_speed states)) states.
Proof.
  intros Hlt. destruct states as [|a l]; [reflexivity|].
  unfold desaturateWheelSpeeds.
  replace (existsb (exceeds c) (a :: l)) with true; [reflexivity|].
  symmetry. apply some_exceeds_iff; [discriminate | exact Hlt].
Qed.

Lemma desaturate_within (c : R) (states : list SwerveModuleState) :
  max_abs_speed states <= c ->
  desaturateWheelSpeeds states c = states.
Proof.
  intros Hle. destruct states as [|a l]; [reflexivity|].
  unfold desaturateWheelSpeeds.
  destruct (existsb (exceeds c) (a :: l)) eqn:E; [|reflexivity].
  apply some_exceeds_iff in E; [lra | discriminate].
Qed.

Lemma length_desaturate (c : R) (states : list SwerveModuleState) :
  length (desaturateWheelSpeeds states c) = length states.
Proof.
  unfold desaturateWheelSpeeds.
  destruct (existsb (exceeds c) states); [apply length_map | reflexivity].
Qed.

(** No desaturated magnitude is above a non-negative ceiling. *)
Lemma desaturate_bounded (c : R) (states : list SwerveModuleState) :
  0 <= c ->
  Forall (fun s => Rabs (speed s) <= c) (desaturateWheelSpeeds states c).
Proof.
  intros Hc. destruct (Rlt_dec c (max_abs_speed states)) as [Hlt|Hge].
  - rewrite desaturate_above by exact Hlt.
    apply List.Forall_forall. intros s' Hin.
    apply in_map_iff in Hin. destruct Hin as [s [<- Hin]].
    unfold scale_speed; simpl.
    pose proof (max_abs_speed_ge states s Hin) as Hs.
    pose proof (Rabs_pos (speed s)) as Hp.
    set (m := max_abs_speed states) in *.
    assert (Hm : 0 < m) by lra.
    rewrite Rabs_mult.
    rewrite (Rabs_pos_eq (c / m)).
    2:{ apply Rmult_le_pos; [exact Hc|]. left. apply Rinv_0_lt_compat, Hm. }
    replace c with (m * (c / m)) at 2 by (field; lra).
    apply Rmult_le_compat_r; [|exact Hs].
    apply Rmult_le_pos; [exact Hc|]. left. apply Rinv_0_lt_compat, Hm.
  - rewrite desaturate_within by lra.
    apply List.Forall_forall. intros s Hin.
    pose proof (max_abs_speed_ge states s Hin). lra.
Qed.

(** Whatever the sign of the ceiling, no desaturated magnitude is above the
    magnitude of the ceiling once scaling has engaged. *)
Lemma desaturate_bounded_abs (c : R) (states : list SwerveModuleState) :
  c < max_abs_speed states ->
  Forall (fun s => Rabs (speed s) <= Rabs c) (desaturateWheelSpeeds states c).
Proof.
  intros Hlt. rewrite desaturate_above by exact Hlt.
  apply List.Forall_forall. intros s' Hin.
  apply in_map_iff in Hin. destruct Hin as [s [<- Hin]].
  unfold scale_speed; simpl.
  pose proof (max_abs_speed_ge states s Hin) as Hs.
  pose proof (max_abs_speed_nonneg states) as Hm.
  pose proof (Rabs_pos (speed s)) as Hp.
  pose proof (Rabs_pos c) as Hc.
  set (m := max_abs_speed states) in *.
  destruct (Req_dec m 0) as [Hz | Hnz].
  - assert (Hv : speed s = 0).
    { destruct (Req_dec (speed s) 0) as [E | E]; [exact E|].
      apply Rabs_pos_lt in E. lra. }
    rewrite Hv, Rmult_0_l, Rabs_R0. exact Hc.
  - assert (Hpos : 0 < m) by lra.
    rewrite Rabs_mult. unfold Rdiv. rewrite Rabs_mult.
    rewrite (Rabs_pos_eq (/ m)) by (left; apply Rinv_0_lt_compat, Hpos).
    replace (Rabs c) with (m * (Rabs c * / m)) at 2 by (field; lra).
    apply Rmult_le_compat_r; [|exact Hs].
    apply Rmult_le_pos; [exact Hc|]. left. apply Rinv_0_lt_compat, Hpos.
Qed.

Lemma max_abs_speed_le (c : R) (states : list SwerveModuleState) :
  0 <= c ->
  Forall (fun s => Rabs (speed s) <= c) states ->
  max_abs_speed states <= c.
Proof.
  intros Hc Hall. induction Hall as [|s l Hs _ IH]; simpl.
  - exact Hc.
  - apply Rmax_lub; assumption.
Qed.

(** Speeds 8, 4, -2, 0 against a ceiling of 4 come out as 4, 2, -1, 0, and
    speeds within the ceiling come out as they went in. *)
Example desaturate_halves :
  desaturateWheelSpeeds (Rig.states_of [8; 4; -2; 0]) 4
  = Rig.states_of [4; 2; -1; 0].
Proof.
  assert (Hmax : max_abs_speed (Rig.states_of [8; 4; -2; 0]) = 8).
  { cbn [Rig.states_of map max_abs_speed foldr speed].
    rewrite (Rabs_pos_eq 8), (Rabs_pos_eq 4), (Rabs_left (-2)), Rabs_R0 by lra.
    rewrite (Rmax_left 0 0), (Rmax_left (- -2) 0), (Rmax_left 4 (- -2)),
      (Rmax_left 8 4) by lra.
    reflexivity. }
  rewrite desaturate_above by (rewrite Hmax; lra).
  rewrite Hmax. unfold scale_speed. cbn [Rig.states_of map speed angle].
  repeat (f_equal; try lra).
Qed.

Example desaturate_leaves :
  desaturateWheelSpeeds (Rig.states_of [2; 2; -2; 2]) 4
  = Rig.states_of [2; 2; -2; 2].
Proof.
  apply desaturate_within. apply max_abs_speed_le; [lra|].
  unfold Rig.states_of. cbn [map].
  repeat (apply List.Forall_cons; [cbn [speed] |]).
  all: try apply List.Forall_nil.
  all: first [rewrite Rabs_pos_eq by lra | rewrite Rabs_left by lra]; lra.
Qed.

(** Scaling by one factor keeps the ratio of any two speeds, in
    cross-multiplied form. *)
Lemma scaling_keeps_ratios (k : R) (states : list SwerveModuleState)
    (i j : nat) (vi vj oi oj : SwerveModuleState) :
  states !! i = Some vi -> states !! j = Some vj ->
  map (scale_speed k) states !! i = Some oi ->
  map (scale_speed k) states !! j = Some oj ->
  speed oi * speed vj = speed oj * speed vi.
Proof.
  intros Hi Hj Hoi Hoj.
  rewrite list_lookup_fmap, Hi in Hoi. rewrite list_lookup_fmap, Hj in Hoj.
  simpl in Hoi, Hoj. injection Hoi as <-. injection Hoj as <-.
  simpl. ring.
Qed.

End Desaturation.

(** ** The fan-out of [desire_module_states] *)

Section FanOutFacts.
Import Wpimath Hardware Py Observe.

Lemma commanded_states_imap (f : nat -> nat) (l : list SwerveModuleState)
    (ol rip : bool) :
  commanded_states (imap (fun i s => ModuleDesireState (f i) s ol rip) l) = l.
Proof.
  revert f. induction l as [|a l IH]; intros f; [reflexivity|].
  change (a :: commanded_states
                 (imap (fun i s => ModuleDesireState ((f ∘ Datatypes.S) i) s ol rip) l)
          = a :: l).
  f_equal. apply (IH (f ∘ Datatypes.S)).
Qed.

Lemma commanded_modules_imap (k : nat) (l : list SwerveModuleState)
    (ol rip : bool) :
  commanded_modules (imap (fun i s => ModuleDesireState (k + i) s ol rip) l)
  = seq k (length l).
Proof.
  revert k. induction l as [|a l IH]; intros k; [reflexivity|].
  change ((k + 0)%nat ::
          commanded_modules
            (imap (fun i s => ModuleDesireState (k + Datatypes.S i) s ol rip) l)
          = k :: seq (Datatypes.S k) (length l)).
  f_equal; [lia|].
  rewrite <- (IH (Datatypes.S k)). f_equal.
  apply imap_ext. intros i x _. simpl. f_equal. lia.
Qed.

Lemma commanded_states_fan_out (l : list SwerveModuleState) (ol rip : bool) :
  commanded_states (fan_out l ol rip) = l.
Proof. apply (commanded_states_imap (fun i => i)). Qed.

Lemma commanded_modules_fan_out (l : list SwerveModuleState) (ol rip : bool) :
  commanded_modules (fan_out l ol rip) = seq 0 (length l).
Proof. apply (commanded_modules_imap 0). Qed.

Lemma fan_out_lookup (l : list SwerveModuleState) (ol rip : bool) (i : nat) :
  fan_out l ol rip !! i =
  (fun s => ModuleDesireState i s ol rip) <$> l !! i.
Proof. unfold fan_out. apply list_lookup_imap. Qed.

(** Both [desire_module_states] are the shared loop over their range. *)
Lemma swervepy_desire_loop (self : Swervepy.SwerveDrive)
    (states : list SwerveModuleState) (ol rip : option bool) :
  Swervepy.desire_module_states states ol rip self
  = for_each (seq 0 (length (Swervepy._modules self)))
      (tell_module Swervepy._modules
         (desaturateWheelSpeeds states (Swervepy.max_velocity self))
         (default false ol) (default true rip)) self.
Proof. unfold Swervepy.desire_module_states. rewrite bind_get. reflexivity. Qed.

Lemma swervelib_desire_loop (self : Swervelib.SwerveDrive)
    (states : list SwerveModuleState) (ol rip : option bool) :
  Swervelib.desire_module_states states ol rip self
  = for_each (seq 0 4)
      (tell_module Swervelib._modules
         (desaturateWheelSpeeds states (Swervelib.max_velocity self))
         (default false ol) (default true rip)) self.
Proof. unfold Swervelib.desire_module_states. rewrite bind_get. reflexivity. Qed.

(** subsystem.py: with one state per module, every module is told its
    desaturated state once, in order, and nothing is raised. *)
Lemma swervepy_fan_out (self : Swervepy.SwerveDrive)
    (states : list SwerveModuleState) (ol rip : option bool) :
  length states = length (Swervepy._modules self) ->
  Swervepy.desire_module_states states ol rip self =
  mkRun (fan_out (desaturateWheelSpeeds states (Swervepy.max_velocity self))
           (default false ol) (default true rip))
        self (inr tt).
Proof.
  intros Hlen. rewrite swervepy_desire_loop.
  rewrite (loop_in_range Swervepy._modules
             (desaturateWheelSpeeds states (Swervepy.max_velocity self))).
  - rewrite drop_0, firstn_all2 by (rewrite length_desaturate; lia).
    reflexivity.
  - lia.
  - rewrite length_desaturate. lia.
Qed.

(** system.py with exactly four modules behaves the same way. *)
Lemma swervelib_fan_out_four (self : Swervelib.SwerveDrive)
    (states : list SwerveModuleState) (ol rip : option bool) :
  length (Swervelib._modules self) = 4%nat -> length states = 4%nat ->
  Swervelib.desire_module_states states ol rip self =
  mkRun (fan_out (desaturateWheelSpeeds states (Swervelib.max_velocity self))
           (default false ol) (default true rip))
        self (inr tt).
Proof.
  intros Hm Hs. rewrite swervelib_desire_loop.
  rewrite (loop_in_range Swervelib._modules
             (desaturateWheelSpeeds states (Swervelib.max_velocity self))).
  - rewrite drop_0, firstn_all2 by (rewrite length_desaturate; lia).
    reflexivity.
  - lia.
  - rewrite length_desaturate. lia.
Qed.

(** system.py with fewer than four modules: the modules there are get their
    command, then index [len(modules)] raises [IndexError]. *)
Lemma swervelib_fan_out_short (self : Swervelib.SwerveDrive)
    (states : list SwerveModuleState) (ol rip : option bool) :
  (length (Swervelib._modules self) < 4)%nat ->
  length states = length (Swervelib._modules self) ->
  Swervelib.desire_module_states states ol rip self =
  mkRun (fan_out (desaturateWheelSpeeds states (Swervelib.max_velocity self))
           (default false ol) (default true rip))
        self (inl IndexError).
Proof.
  intros Hm Hs. rewrite swervelib_desire_loop.
  set (n := length (Swervelib._modules self)) in *.
  replace 4%nat with (n + Datatypes.S (3 - n))%nat by lia.
  rewrite seq_app, for_each_app. unfold bind at 1.
  rewrite (loop_in_range Swervelib._modules
             (desaturateWheelSpeeds states (Swervelib.max_velocity self)))
    by (try rewrite length_desaturate; fold n; lia).
  cbn [outcome final calls].
  rewrite (loop_past_modules Swervelib._modules) by (fold n; lia).
  cbn [outcome final calls].
  rewrite drop_0, firstn_all2 by (rewrite length_desaturate; lia).
  rewrite app_nil_r. reflexivity.
Qed.

(** system.py with more than four modules: only the first four are told
    anything. *)
Lemma swervelib_fan_out_long (self : Swervelib.SwerveDrive)
    (states : list SwerveModuleState) (ol rip : option bool) :
  (4 <= length (Swervelib._modules self))%nat ->
  length states = length (Swervelib._modules self) ->
  Swervelib.desire_module_states states ol rip self =
  mkRun (fan_out (take 4 (desaturateWheelSpeeds states (Swervelib.max_velocity self)))
           (default false ol) (default true rip))
        self (inr tt).
Proof.
  intros Hm Hs. rewrite swervelib_desire_loop.
  rewrite (loop_in_range Swervelib._modules
             (desaturateWheelSpeeds states (Swervelib.max_velocity self)))
    by (try rewrite length_desaturate; lia).
  rewrite drop_0. reflexivity.
Qed.

End FanOutFacts.

(** ** Desaturated commands (C1) *)

Section DesaturatedCommands.
Import Wpimath Hardware Py Observe.

(** C1.  subsystem.py, one state per module: when the largest input
    magnitude is above [max_velocity], the state told to module [i] is the
    input state [i] with its speed multiplied by
    [max_velocity / max |v|] (so no commanded magnitude is above the
    magnitude of the ceiling, which is the ceiling itself when that is not
    negative, and the ratio of any two speeds is the ratio of the inputs);
    when it is not above, the commanded states are the inputs. *)
Theorem desire_module_states_desaturates
    (self : Swervepy.SwerveDrive) (states : list SwerveModuleState)
    (ol rip : option bool) :
  length states = length (Swervepy._modules self) ->
  let out :=
    commanded_states (calls (Swervepy.desire_module_states states ol rip self)) in
  (Swervepy.max_velocity self < max_abs_speed states ->
     out = map (fun v =>
                  mkSwerveModuleState
                    (speed v * (Swervepy.max_velocity self / max_abs_speed states))
                    (angle v)) states
     /\ Forall (fun s => Rabs (speed s) <= Rabs (Swervepy.max_velocity self)) out
     /\ (0 <= Swervepy.max_velocity self ->
         Forall (fun s => Rabs (speed s) <= Swervepy.max_velocity self) out)
     /\ (forall i j vi vj oi oj,
           states !! i = Some vi -> states !! j = Some vj ->
           out !! i = Some oi -> out !! j = Some oj ->
           speed oi * speed vj = speed oj * speed vi))
  /\ (max_abs_speed states <= Swervepy.max_velocity self -> out = states).
Proof.
  intros Hlen out. subst out.
  rewrite swervepy_fan_out by exact Hlen. cbn [calls].
  rewrite commanded_states_fan_out. split.
  - intros Hlt. split; [|split; [|split]].
    + apply desaturate_above, Hlt.
    + apply desaturate_bounded_abs, Hlt.
    + intros Hc. apply desaturate_bounded, Hc.
    + rewrite desaturate_above by exact Hlt. intros i j vi vj oi oj.
      apply scaling_keeps_ratios.
  - apply desaturate_within.
Qed.

(** The same on system.py, for the four modules its loop visits. *)
Lemma swervelib_desaturated_commands
    (self : Swervelib.SwerveDrive) (states : list SwerveModuleState)
    (ol rip : option bool) :
  length (Swervelib._modules self) = 4%nat -> length states = 4%nat ->
  let out :=
    commanded_states (calls (Swervelib.desire_module_states states ol rip self)) in
  (Swervelib.max_velocity self < max_abs_speed states ->
     out = map (fun v =>
                  mkSwerveModuleState
                    (speed v * (Swervelib.max_velocity self / max_abs_speed states))
                    (angle v)) states
     /\ (0 <= Swervelib.max_velocity self ->
         Forall (fun s => Rabs (speed s) <= Swervelib.max_velocity self) out))
  /\ (max_abs_speed states <= Swervelib.max_velocity self -> out = states).
Proof.
  intros Hm Hlen out. subst out.
  rewrite swervelib_fan_out_four by assumption. cbn [calls].
  rewrite commanded_states_fan_out. split.
  - intros Hlt. split.
    + apply desaturate_above, Hlt.
    + intros Hc. apply desaturate_bounded, Hc.
  - apply desaturate_within.
Qed.

(** On the square rig with ceiling 4, speeds 8, 4, -2, 0 are commanded as
    8 * (4 / max), 4 * (4 / max), ... *)
Lemma desire_module_states_desaturates_witness :
  commanded_states
    (calls (Swervepy.desire_module_states (Rig.states_of [8; 4; -2; 0]) None None
              (Rig.swervepy_drive Rig.square)))
  = map (fun v =>
           mkSwerveModuleState
             (speed v * (4 / max_abs_speed (Rig.states_of [8; 4; -2; 0])))
             (angle v)) (Rig.states_of [8; 4; -2; 0]).
Proof.
  refine (proj1 (proj1 (desire_module_states_desaturates
                   (Rig.swervepy_drive Rig.square)
                   (Rig.states_of [8; 4; -2; 0]) None None eq_refl) _)).
  apply Rlt_le_trans with (Rabs 8).
  - rewrite Rabs_pos_eq; simpl; lra.
  - apply (max_abs_speed_ge _ (mkSwerveModuleState 8 Rotation2d_zero)).
    left. reflexivity.
Defined.

End DesaturatedCommands.

(** ** One command per module (C2) *)

Section OneCommandPerModule.
Import Wpimath Hardware Py Observe.

(** subsystem.py: for every module count and one state per module, the
    modules told a state are 0, 1, ..., N-1, each once and in this order;
    module [i] is told desaturated state [i] with both flags; nothing is
    raised. *)
Lemma swervepy_one_command_per_module
    (self : Swervepy.SwerveDrive) (states : list SwerveModuleState)
    (ol rip : option bool) :
  length states = length (Swervepy._modules self) ->
  let r := Swervepy.desire_module_states states ol rip self in
  outcome r = inr tt
  /\ commanded_modules (calls r) = seq 0 (length (Swervepy._modules self))
  /\ length (calls r) = length (Swervepy._modules self)
  /\ forall i, (i < length (Swervepy._modules self))%nat ->
       exists s,
         desaturateWheelSpeeds states (Swervepy.max_velocity self) !! i = Some s
         /\ calls r !! i =
            Some (ModuleDesireState i s (default false ol) (default true rip)).
Proof.
  intros Hlen r. subst r. rewrite swervepy_fan_out by exact Hlen.
  cbn [calls outcome]. split; [reflexivity|]. split; [|split].
  - rewrite commanded_modules_fan_out, length_desaturate, Hlen. reflexivity.
  - unfold fan_out. rewrite length_imap, length_desaturate. exact Hlen.
  - intros i Hi.
    destruct (lookup_lt_is_Some_2
                (desaturateWheelSpeeds states (Swervepy.max_velocity self)) i)
      as [s Hs]; [rewrite length_desaturate; lia|].
    exists s. split; [exact Hs|]. rewrite fan_out_lookup, Hs. reflexivity.
Qed.

(** The rigs are what the constructor builds. *)
Lemma swervelib_rigs_constructed :
  outcome (Swervelib.__init__ Rig.wpimath_classes Rig.triangle Rig.gyro 4 6 None)
  = inr (Rig.swervelib_drive Rig.triangle)
  /\ outcome (Swervelib.__init__ Rig.wpimath_classes Rig.hexagon Rig.gyro 4 6 None)
     = inr (Rig.swervelib_drive Rig.hexagon).
Proof. split; reflexivity. Qed.

(** C2 fails on system.py, whose loop is over [range(4)].  With three
    modules and three states, modules 0, 1 and 2 are commanded and index 3
    raises [IndexError]; with six modules and six states, modules 4 and 5
    are never commanded. *)
Theorem swervelib_fan_out_assumes_four_modules :
  let three :=
    Swervelib.desire_module_states (Rig.states_of [1; 1; 1]) None None
      (Rig.swervelib_drive Rig.triangle) in
  let six :=
    Swervelib.desire_module_states (Rig.states_of [1; 1; 1; 1; 1; 1]) None None
      (Rig.swervelib_drive Rig.hexagon) in
  (outcome three = inl IndexError
   /\ commanded_modules (calls three) = [0; 1; 2]%nat)
  /\ (outcome six = inr tt
      /\ commanded_modules (calls six) = [0; 1; 2; 3]%nat).
Proof.
  intros three six. subst three six. split.
  - rewrite swervelib_fan_out_short by (simpl; lia).
    cbn [outcome calls]. split; [reflexivity|].
    rewrite commanded_modules_fan_out, length_desaturate. reflexivity.
  - rewrite swervelib_fan_out_long by (simpl; lia).
    cbn [outcome calls]. split; [reflexivity|].
    rewrite commanded_modules_fan_out, length_take, length_desaturate.
    reflexivity.
Qed.

End OneCommandPerModule.

(** ** The drive entry points (C3, C4, C5) *)

Section Drive.
Import Wpimath Hardware Py Observe.

Lemma fromFieldRelativeSpeeds_zero (vx_ vy_ w : R) :
  fromFieldRelativeSpeeds vx_ vy_ w Rotation2d_zero = mkChassisSpeeds vx_ vy_ w.
Proof.
  unfold fromFieldRelativeSpeeds, Rotation2d_zero. cbn [radians].
  rewrite cos_0, sin_0. f_equal; ring.
Qed.

(** C3.  With the gyro heading at zero, a field-relative and a
    robot-relative [drive] of the same translation, rotation and open-loop
    flag are the same run: the same module-state list out of the inverse
    kinematics, the same calls on the modules, the same outcome.  Both
    source files. *)
Theorem drive_frames_agree_at_zero_heading
    (py : Swervepy.SwerveDrive) (lib : Swervelib.SwerveDrive)
    (translation : Translation2d) (rotation : R) (open_loop : bool) :
  heading (Swervepy._gyro py) = Rotation2d_zero ->
  heading (Swervelib._gyro lib) = Rotation2d_zero ->
  (toSwerveModuleStates (Swervepy._kinematics py)
     (fromFieldRelativeSpeeds (x translation) (y translation) rotation
        (heading (Swervepy._gyro py)))
   = toSwerveModuleStates (Swervepy._kinematics py)
       (mkChassisSpeeds (x translation) (y translation) rotation)
   /\ Swervepy.drive translation rotation true open_loop py
      = Swervepy.drive translation rotation false open_loop py)
  /\ (toSwerveModuleStates (Swervelib._kinematics lib)
        (fromFieldRelativeSpeeds (x translation) (y translation) rotation
           (heading (Swervelib._gyro lib)))
      = toSwerveModuleStates (Swervelib._kinematics lib)
          (mkChassisSpeeds (x translation) (y translation) rotation)
      /\ Swervelib.drive translation rotation true open_loop lib
         = Swervelib.drive translation rotation false open_loop lib).
Proof.
  intros Hpy Hlib. split; split.
  - rewrite Hpy, fromFieldRelativeSpeeds_zero. reflexivity.
  - unfold Swervepy.drive. rewrite !bind_get.
    rewrite Hpy, fromFieldRelativeSpeeds_zero. reflexivity.
  - rewrite Hlib, fromFieldRelativeSpeeds_zero. reflexivity.
  - unfold Swervelib.drive. rewrite !bind_get.
    rewrite Hlib, fromFieldRelativeSpeeds_zero. reflexivity.
Qed.

Lemma drive_frames_agree_at_zero_heading_witness :
  Swervepy.drive (mkTranslation2d 2 0) 0 true true (Rig.swervepy_drive Rig.square)
  = Swervepy.drive (mkTranslation2d 2 0) 0 false true (Rig.swervepy_drive Rig.square)
  /\ Swervelib.drive (mkTranslation2d 2 0) 0 true true (Rig.swervelib_drive Rig.square)
     = Swervelib.drive (mkTranslation2d 2 0) 0 false true
         (Rig.swervelib_drive Rig.square).
Proof.
  pose proof (drive_frames_agree_at_zero_heading
                (Rig.swervepy_drive Rig.square) (Rig.swervelib_drive Rig.square)
                (mkTranslation2d 2 0) 0 true eq_refl eq_refl) as H.
  exact (conj (proj2 (proj1 H)) (proj2 (proj2 H))).
Defined.

(** C4.  The [ChassisSpeeds] overload of [drive] is the primary [drive] on
    [Translation2d(s.vx, s.vy)], [s.omega], robot-relative, with the same
    open-loop flag: the same run from every drivetrain state.  It commands
    the inverse kinematics of [s] itself. *)
Theorem drive_overloads_equivalent
    (s : ChassisSpeeds) (open_loop : bool) (self : Swervepy.SwerveDrive) :
  Swervepy.drive_dispatch (Swervepy.ByChassisSpeeds s open_loop) self
  = Swervepy.drive_dispatch
      (Swervepy.ByTranslation (mkTranslation2d (vx s) (vy s)) (omega s) false
         open_loop) self
  /\ Swervepy.drive_dispatch (Swervepy.ByChassisSpeeds s open_loop) self
     = Swervepy.desire_module_states
         (toSwerveModuleStates (Swervepy._kinematics self) s)
         (Some open_loop) (Some false) self.
Proof.
  split; [reflexivity|].
  cbn [Swervepy.drive_dispatch]. unfold Swervepy.drive_ChassisSpeeds, Swervepy.drive.
  rewrite bind_get. destruct s; reflexivity.
Qed.

(** Every call either [desire_module_states] makes is a [desire_state]
    with the two flags it was given, defaults filled in. *)
Lemma swervepy_calls_carry_flags (self : Swervepy.SwerveDrive)
    (states : list SwerveModuleState) (ol rip : option bool) (c : Call) :
  In c (calls (Swervepy.desire_module_states states ol rip self)) ->
  exists i st, c = ModuleDesireState i st (default false ol) (default true rip).
Proof.
  rewrite swervepy_desire_loop. intros Hin.
  apply (loop_calls Swervepy._modules) in Hin.
  destruct Hin as [i [st [Hc _]]]. exists i, st. exact Hc.
Qed.

Lemma swervelib_calls_carry_flags (self : Swervelib.SwerveDrive)
    (states : list SwerveModuleState) (ol rip : option bool) (c : Call) :
  In c (calls (Swervelib.desire_module_states states ol rip self)) ->
  exists i st, c = ModuleDesireState i st (default false ol) (default true rip).
Proof.
  rewrite swervelib_desire_loop. intros Hin.
  apply (loop_calls Swervelib._modules) in Hin.
  destruct Hin as [i [st [Hc _]]]. exists i, st. exact Hc.
Qed.

Lemma swervepy_drive_unfolds (args : Swervepy.DriveArgs)
    (self : Swervepy.SwerveDrive) :
  Swervepy.drive_dispatch args self
  = Swervepy.desire_module_states
      (toSwerveModuleStates (Swervepy._kinematics self)
         (composed_speeds (heading (Swervepy._gyro self)) args))
      (Some (open_loop_of args)) (Some false) self.
Proof.
  destruct args as [t r fr ol | cs ol]; cbn [Swervepy.drive_dispatch].
  - unfold Swervepy.drive. rewrite bind_get. destruct fr; reflexivity.
  - unfold Swervepy.drive_ChassisSpeeds, Swervepy.drive. rewrite bind_get.
    reflexivity.
Qed.

Lemma swervelib_drive_unfolds (t : Translation2d) (r : R) (fr ol : bool)
    (self : Swervelib.SwerveDrive) :
  Swervelib.drive t r fr ol self
  = Swervelib.desire_module_states
      (toSwerveModuleStates (Swervelib._kinematics self)
         (composed_speeds (heading (Swervelib._gyro self))
            (Swervepy.ByTranslation t r fr ol)))
      (Some ol) (Some false) self.
Proof.
  unfold Swervelib.drive. rewrite bind_get. destruct fr; reflexivity.
Qed.

(** C5.  Every [drive], by either overload and in either file, is
    [desire_module_states] on the inverse kinematics of the composed chassis
    speed with [rotate_in_place=False], so every module call it makes
    carries [rotate_in_place = false]; [desire_module_states] called without
    [rotate_in_place] makes its calls with [rotate_in_place = true]. *)
Theorem drive_never_rotates_in_place :
  (forall (self : Swervepy.SwerveDrive) (args : Swervepy.DriveArgs),
     Swervepy.drive_dispatch args self
     = Swervepy.desire_module_states
         (toSwerveModuleStates (Swervepy._kinematics self)
            (composed_speeds (heading (Swervepy._gyro self)) args))
         (Some (open_loop_of args)) (Some false) self
     /\ forall i st o r,
          In (ModuleDesireState i st o r)
             (calls (Swervepy.drive_dispatch args self)) ->
          o = open_loop_of args /\ r = false)
  /\ (forall (self : Swervelib.SwerveDrive) t rot fr ol,
        Swervelib.drive t rot fr ol self
        = Swervelib.desire_module_states
            (toSwerveModuleStates (Swervelib._kinematics self)
               (composed_speeds (heading (Swervelib._gyro self))
                  (Swervepy.ByTranslation t rot fr ol)))
            (Some ol) (Some false) self
        /\ forall i st o r,
             In (ModuleDesireState i st o r)
                (calls (Swervelib.drive t rot fr ol self)) ->
             o = ol /\ r = false)
  /\ (forall (self : Swervepy.SwerveDrive) states ol i st o r,
        In (ModuleDesireState i st o r)
           (calls (Swervepy.desire_module_states states ol None self)) ->
        r = true)
  /\ (forall (self : Swervelib.SwerveDrive) states ol i st o r,
        In (ModuleDesireState i st o r)
           (calls (Swervelib.desire_module_states states ol None self)) ->
        r = true).
Proof.
  split; [|split; [|split]].
  - intros self args. split; [apply swervepy_drive_unfolds|].
    intros i st o r. rewrite swervepy_drive_unfolds. intros Hin.
    apply swervepy_calls_carry_flags in Hin.
    destruct Hin as [i' [st' Heq]]. injection Heq as _ _ -> ->.
    split; reflexivity.
  - intros self t rot fr ol. split; [apply swervelib_drive_unfolds|].
    intros i st o r. rewrite swervelib_drive_unfolds. intros Hin.
    apply swervelib_calls_carry_flags in Hin.
    destruct Hin as [i' [st' Heq]]. injection Heq as _ _ -> ->.
    split; reflexivity.
  - intros self states ol i st o r Hin.
    apply swervepy_calls_carry_flags in Hin.
    destruct Hin as [i' [st' Heq]]. injection Heq as _ _ _ ->. reflexivity.
  - intros self states ol i st o r Hin.
    apply swervelib_calls_carry_flags in Hin.
    destruct Hin as [i' [st' Heq]]. injection Heq as _ _ _ ->. reflexivity.
Qed.

(** On the square rig, a robot-relative open-loop drive at 2 m/s forward
    tells module 0 its state with [open_loop = true] and
    [rotate_in_place = false]. *)
Lemma drive_never_rotates_in_place_witness :
  In (ModuleDesireState 0 (mkSwerveModuleState 2 Rotation2d_zero) true false)
     (calls (Swervepy.drive_dispatch
               (Swervepy.ByTranslation (mkTranslation2d 2 0) 0 false true)
               (Rig.swervepy_drive Rig.square)))
  /\ true = open_loop_of (Swervepy.ByTranslation (mkTranslation2d 2 0) 0 false true)
  /\ false = false.
Proof.
  assert (Hin : In (ModuleDesireState 0 (mkSwerveModuleState 2 Rotation2d_zero)
                      true false)
                   (calls (Swervepy.drive_dispatch
                             (Swervepy.ByTranslation (mkTranslation2d 2 0) 0 false true)
                             (Rig.swervepy_drive Rig.square)))).
  { rewrite swervepy_drive_unfolds, swervepy_fan_out by reflexivity.
    cbn [calls]. rewrite desaturate_within.
    - left. reflexivity.
    - apply max_abs_speed_le; [simpl; lra|].
      repeat (apply List.Forall_cons; [simpl |]).
      all: try apply List.Forall_nil.
      all: rewrite Rabs_pos_eq; lra. }
  split; [exact Hin|].
  exact (proj2 (proj1 drive_never_rotates_in_place
                  (Rig.swervepy_drive Rig.square)
                  (Swervepy.ByTranslation (mkTranslation2d 2 0) 0 false true))
           0%nat (mkSwerveModuleState 2 Rotation2d_zero) true false Hin).
Defined.

End Drive.

(** ** The teleoperation command's runtime flags (C6) *)

Section RuntimeFlags.
Import Wpimath Hardware Py Observe.

Lemma swervepy_getattr_setattr_other {S} (cmd : Swervepy._TeleOpCommand)
    (name other : string) (v : bool) :
  other <> name ->
  Swervepy.getattr (S := S) (Swervepy.setattr cmd other v) name
  = Swervepy.getattr cmd name.
Proof.
  intros Hne. unfold Swervepy.getattr, Swervepy.setattr. cbn [Swervepy.attrs].
  rewrite lookup_insert_ne by exact Hne. reflexivity.
Qed.

Lemma swervepy_getattr_setattr {S} (cmd : Swervepy._TeleOpCommand)
    (name : string) (v : bool) :
  Swervepy.getattr (S := S) (Swervepy.setattr cmd name v) name = ret v.
Proof.
  unfold Swervepy.getattr, Swervepy.setattr. cbn [Swervepy.attrs].
  rewrite lookup_insert_eq. reflexivity.
Qed.

Lemma swervelib_getattr_setattr_other {S} (cmd : Swervelib._TeleOpCommand)
    (name other : string) (v : bool) :
  other <> name ->
  Swervelib.getattr (S := S) (Swervelib.setattr cmd other v) name
  = Swervelib.getattr cmd name.
Proof.
  intros Hne. unfold Swervelib.getattr, Swervelib.setattr. cbn [Swervelib.attrs].
  rewrite lookup_insert_ne by exact Hne. reflexivity.
Qed.

Lemma swervelib_getattr_setattr {S} (cmd : Swervelib._TeleOpCommand)
    (name : string) (v : bool) :
  Swervelib.getattr (S := S) (Swervelib.setattr cmd name v) name = ret v.
Proof.
  unfold Swervelib.getattr, Swervelib.setattr. cbn [Swervelib.attrs].
  rewrite lookup_insert_eq. reflexivity.
Qed.

(** What the two dashboard setters of subsystem.py write to. *)
Lemma swervepy_dashboard_writes (cmd : Swervepy._TeleOpCommand) (v : bool) :
  Swervepy.dashboard_write (Swervepy.initSendable []) "Field Relative" v cmd
  = Swervepy.setattr cmd "field_relative" v
  /\ Swervepy.dashboard_write (Swervepy.initSendable []) "Open Loop" v cmd
     = Swervepy.setattr cmd "drive_open_loop" v.
Proof. split; reflexivity. Qed.

Lemma swervelib_dashboard_writes (cmd : Swervelib._TeleOpCommand) (v : bool) :
  Swervelib.dashboard_write (Swervelib.initSendable []) "Field Relative" v cmd
  = Swervelib.setattr cmd "field_relative" v
  /\ Swervelib.dashboard_write (Swervelib.initSendable []) "Open Loop" v cmd
     = Swervelib.setattr cmd "open_loop" v.
Proof. split; reflexivity. Qed.

(** system.py: a dashboard write of [v] to "Open Loop" is the open-loop
    flag of the next [execute], and a write to "Field Relative" its frame
    flag. *)
Lemma swervelib_dashboard_write_reaches_execute
    (cmd : Swervelib._TeleOpCommand) (v fr ol : bool)
    (self : Swervelib.SwerveDrive) :
  Swervelib.attrs cmd !! "field_relative" = Some fr ->
  Swervelib.attrs cmd !! "open_loop" = Some ol ->
  let translation :=
    Translation2d_mul
      (mkTranslation2d (Swervelib._translation cmd tt) (Swervelib._strafe cmd tt))
      (Swervelib.max_velocity self) in
  let rotation := Swervelib._rotation cmd tt * Swervelib.max_angular_velocity self in
  Swervelib.execute
    (Swervelib.dashboard_write (Swervelib.initSendable []) "Open Loop" v cmd) self
  = Swervelib.drive translation rotation fr v self
  /\ Swervelib.execute
       (Swervelib.dashboard_write (Swervelib.initSendable []) "Field Relative" v cmd)
       self
     = Swervelib.drive translation rotation v ol self.
Proof.
  intros Hfr Hol translation rotation.
  destruct (swervelib_dashboard_writes cmd v) as [-> ->].
  unfold Swervelib.execute. rewrite !bind_get. split.
  - rewrite swervelib_getattr_setattr_other by discriminate.
    rewrite swervelib_getattr_setattr.
    unfold Swervelib.getattr at 1. rewrite Hfr.
    rewrite !bind_ret_l. reflexivity.
  - rewrite swervelib_getattr_setattr.
    rewrite swervelib_getattr_setattr_other by discriminate.
    unfold Swervelib.getattr at 1. rewrite Hol.
    rewrite !bind_ret_l. reflexivity.
Qed.

(** subsystem.py: the "Field Relative" write reaches the next [execute]. *)
Lemma swervepy_field_relative_write_reaches_execute
    (cmd : Swervepy._TeleOpCommand) (v ol : bool) (self : Swervepy.SwerveDrive) :
  Swervepy.attrs cmd !! "open_loop" = Some ol ->
  Swervepy.execute
    (Swervepy.dashboard_write (Swervepy.initSendable []) "Field Relative" v cmd) self
  = Swervepy.drive
      (Translation2d_mul
         (mkTranslation2d (Swervepy._translation cmd tt) (Swervepy._strafe cmd tt))
         (Swervepy.max_velocity self))
      (Swervepy._rotation cmd tt * Swervepy.max_angular_velocity self) v ol self.
Proof.
  intros Hol. destruct (swervepy_dashboard_writes cmd v) as [-> _].
  unfold Swervepy.execute. rewrite !bind_get.
  rewrite swervepy_getattr_setattr.
  rewrite swervepy_getattr_setattr_other by discriminate.
  unfold Swervepy.getattr at 1. rewrite Hol.
  rewrite !bind_ret_l. reflexivity.
Qed.

(** subsystem.py: the toggle does change the flag [execute] reads. *)
Lemma swervepy_toggle_open_loop (cmd : Swervepy._TeleOpCommand) (ol : bool) :
  Swervepy.attrs cmd !! "open_loop" = Some ol ->
  Swervepy.attrs (final (Swervepy.toggle_open_loop cmd)) !! "open_loop"
  = Some (negb ol).
Proof.
  intros Hol. unfold Swervepy.toggle_open_loop. rewrite bind_get.
  unfold Swervepy.getattr. rewrite Hol, bind_ret_l.
  unfold put, Swervepy.setattr. cbn [final Swervepy.attrs].
  apply lookup_insert_eq.
Qed.

(** subsystem.py: a dashboard write to "Open Loop" never changes what
    [execute] does, whatever the command and the value. *)
Lemma swervepy_open_loop_write_ignored
    (cmd : Swervepy._TeleOpCommand) (v : bool) (self : Swervepy.SwerveDrive) :
  Swervepy.execute
    (Swervepy.dashboard_write (Swervepy.initSendable []) "Open Loop" v cmd) self
  = Swervepy.execute cmd self.
Proof.
  destruct (swervepy_dashboard_writes cmd v) as [_ ->].
  unfold Swervepy.execute. rewrite !bind_get.
  rewrite !swervepy_getattr_setattr_other by discriminate.
  reflexivity.
Qed.

(** C6 fails on subsystem.py, whose "Open Loop" setter does
    [setattr(self, "drive_open_loop", val)].  A closed-loop command is
    written [True]: its [open_loop] attribute is still [False], the value
    sits in a new attribute [drive_open_loop], and the next [execute] drives
    closed-loop, every module told [open_loop = false]. *)
Theorem swervepy_open_loop_write_lost :
  let written :=
    Swervepy.dashboard_write (Swervepy.initSendable []) "Open Loop" true
      Rig.swervepy_teleop in
  let run := Swervepy.execute written (Rig.swervepy_drive Rig.square) in
  Swervepy.attrs written !! "open_loop" = Some false
  /\ Swervepy.attrs written !! "drive_open_loop" = Some true
  /\ run = Swervepy.drive (mkTranslation2d (0 * 4) (0 * 4)) (0 * 6) false false
             (Rig.swervepy_drive Rig.square)
  /\ length (calls run) = 4%nat
  /\ forall i st o r, In (ModuleDesireState i st o r) (calls run) -> o = false.
Proof.
  intros written run.
  assert (Hrun : run = Swervepy.drive (mkTranslation2d (0 * 4) (0 * 4)) (0 * 6)
                         false false (Rig.swervepy_drive Rig.square)).
  { subst run written. rewrite swervepy_open_loop_write_ignored. reflexivity. }
  split; [reflexivity|]. split; [reflexivity|]. split; [exact Hrun|].
  rewrite Hrun.
  change (Swervepy.drive ?t ?r false false ?s)
    with (Swervepy.drive_dispatch (Swervepy.ByTranslation t r false false) s).
  rewrite swervepy_drive_unfolds.
  split.
  - rewrite swervepy_fan_out by reflexivity. cbn [calls].
    unfold fan_out. rewrite length_imap, length_desaturate. reflexivity.
  - intros i st o r Hin. apply swervepy_calls_carry_flags in Hin.
    destruct Hin as [i' [st' Heq]]. injection Heq as _ _ -> _. reflexivity.
Qed.

End RuntimeFlags.

(** ** The pose estimate: periodic, reset (C7, C8) *)

Section PoseEstimate.
Import Wpimath Hardware Py Observe.

(** subsystem.py [periodic], written out. *)
Lemma swervepy_periodic_run (self : Swervepy.SwerveDrive) (t : R) :
  let fused :=
    snd (update (heading (Swervepy._gyro self)) (Swervepy.module_positions self)
           (Swervepy._odometry self)) in
  Swervepy.periodic t self
  = mkRun [VisionPoseCallback (getEstimatedPosition fused)]
      (Swervepy.set_field (getEstimatedPosition fused)
         (Swervepy.set_odometry
            (match Swervepy._vision_pose_callback self (getEstimatedPosition fused) with
             | Some vision => addVisionMeasurement vision t fused
             | None => fused
             end) self))
      (inr tt).
Proof.
  intros fused. subst fused. unfold Swervepy.periodic. rewrite bind_get.
  unfold update. cbn [snd].
  unfold bind, put, get, call, modify, ret. cbn [outcome final calls app].
  unfold Swervepy.pose. cbn [Swervepy._odometry Swervepy.set_odometry
                             Swervepy._vision_pose_callback].
  destruct (Swervepy._vision_pose_callback self _); reflexivity.
Qed.

(** system.py [periodic], written out. *)
Lemma swervelib_periodic_run (self : Swervelib.SwerveDrive) (t : R) :
  let fused :=
    snd (update (heading (Swervelib._gyro self)) (Swervelib.module_positions self)
           (Swervelib._odometry self)) in
  Swervelib.periodic t self
  = mkRun [VisionPoseCallback (getEstimatedPosition fused)]
      (Swervelib.set_odometry
         (match Swervelib._vision_pose_callback self (getEstimatedPosition fused) with
          | Some vision => addVisionMeasurement vision t fused
          | None => fused
          end) self)
      (inr tt).
Proof.
  intros fused. subst fused. unfold Swervelib.periodic. rewrite bind_get.
  unfold update. cbn [snd].
  unfold bind, put, get, call, modify, ret. cbn [outcome final calls app].
  unfold Swervelib.pose. cbn [Swervelib._odometry Swervelib.set_odometry
                              Swervelib._vision_pose_callback].
  destruct (Swervelib._vision_pose_callback self _); reflexivity.
Qed.

(** C7.  In both files [periodic] returns normally; its estimator is the
    fusion of the current heading and module positions, with the vision
    pose added at the given timestamp when the callback returned one and
    nothing more when it returned none; the callback is invoked exactly
    once, with the pose of the fused estimate; and the history of accepted
    corrections grows by that one timestamped pose or not at all. *)
Theorem periodic_fuses_then_asks_vision
    (py : Swervepy.SwerveDrive) (lib : Swervelib.SwerveDrive) (t : R) :
  (let fused :=
     snd (update (heading (Swervepy._gyro py)) (Swervepy.module_positions py)
            (Swervepy._odometry py)) in
   let asked := Swervepy._vision_pose_callback py (getEstimatedPosition fused) in
   let r := Swervepy.periodic t py in
   outcome r = inr tt
   /\ callback_invocations (calls r) = [getEstimatedPosition fused]
   /\ Swervepy._odometry (final r)
      = match asked with
        | Some vision => addVisionMeasurement vision t fused
        | None => fused
        end
   /\ corrections (Swervepy._odometry (final r))
      = match asked with
        | Some vision => (vision, t) :: corrections (Swervepy._odometry py)
        | None => corrections (Swervepy._odometry py)
        end)
  /\ (let fused :=
        snd (update (heading (Swervelib._gyro lib)) (Swervelib.module_positions lib)
               (Swervelib._odometry lib)) in
      let asked := Swervelib._vision_pose_callback lib (getEstimatedPosition fused) in
      let r := Swervelib.periodic t lib in
      outcome r = inr tt
      /\ callback_invocations (calls r) = [getEstimatedPosition fused]
      /\ Swervelib._odometry (final r)
         = match asked with
           | Some vision => addVisionMeasurement vision t fused
           | None => fused
           end
      /\ corrections (Swervelib._odometry (final r))
         = match asked with
           | Some vision => (vision, t) :: corrections (Swervelib._odometry lib)
           | None => corrections (Swervelib._odometry lib)
           end).
Proof.
  split.
  - intros fused asked r. subst r. rewrite swervepy_periodic_run.
    fold fused. fold asked. cbn [outcome final calls].
    repeat split; destruct asked; reflexivity.
  - intros fused asked r. subst r. rewrite swervelib_periodic_run.
    fold fused. fold asked. cbn [outcome final calls].
    repeat split; destruct asked; reflexivity.
Qed.

(** C8.  After [reset_odometry(P)] the [pose] accessor returns [P],
    whatever the heading and module positions taken as baseline.  Both
    files. *)
Theorem reset_odometry_then_pose
    (py : Swervepy.SwerveDrive) (lib : Swervelib.SwerveDrive) (P : Pose2d) :
  (outcome (Swervepy.reset_odometry P py) = inr tt
   /\ Swervepy.pose (final (Swervepy.reset_odometry P py)) = P)
  /\ (outcome (Swervelib.reset_odometry P lib) = inr tt
      /\ Swervelib.pose (final (Swervelib.reset_odometry P lib)) = P).
Proof. repeat split. Qed.

(** The reset takes the heading and positions read at the call as the new
    baseline and forgets the accepted corrections. *)
Lemma reset_odometry_baseline (py : Swervepy.SwerveDrive) (P : Pose2d) :
  let o := Swervepy._odometry (final (Swervepy.reset_odometry P py)) in
  base_heading o = heading (Swervepy._gyro py)
  /\ base_positions o = Swervepy.module_positions py
  /\ corrections o = [].
Proof. repeat split. Qed.

End PoseEstimate.

(** ** The drive-base radius (C9) *)

Section DriveBaseRadius.
Import Wpimath Hardware Py Observe.

(** The running maximum is an item and no item is above it. *)
Lemma running_max_spec (ds : list R) (d : R) :
  let r := foldl (fun m v => if Rlt_dec m v then v else m) d ds in
  In r (d :: ds) /\ forall v, In v (d :: ds) -> v <= r.
Proof.
  revert d. induction ds as [|a ds IH]; intros d; cbn [foldl].
  - split; [left; reflexivity|]. intros v [<- | []]. lra.
  - destruct (IH (if Rlt_dec d a then a else d)) as [Hin Hmax].
    cbv zeta in Hin, Hmax. cbv zeta.
    set (r := foldl _ _ ds) in *.
    split.
    + destruct Hin as [Hr | Hr].
      * destruct (Rlt_dec d a); [right; left | left]; exact Hr.
      * right; right; exact Hr.
    + assert (Hstep : (if Rlt_dec d a then a else d) <= r)
        by (apply Hmax; left; reflexivity).
      intros v [<- | [<- | Hv]].
      * destruct (Rlt_dec d a); lra.
      * destruct (Rlt_dec d a); lra.
      * apply Hmax. right. exact Hv.
Qed.

Lemma greatest_distance_spec {S} (translations : list Translation2d) (s : S) :
  translations <> [] ->
  exists r,
    Swervepy.greatest_distance_from_translations translations s
    = mkRun [] s (inr r)
    /\ (exists t, In t translations /\ r = sqrt (x t ^ 2 + y t ^ 2))
    /\ (forall t, In t translations -> sqrt (x t ^ 2 + y t ^ 2) <= r).
Proof.
  intros Hne. destruct translations as [|t0 ts]; [congruence|].
  unfold Swervepy.greatest_distance_from_translations. cbn [map Swervepy.py_max].
  set (dist := fun trans : Translation2d => sqrt (x trans ^ 2 + y trans ^ 2)).
  destruct (running_max_spec (map dist ts) (dist t0)) as [Hin Hmax].
  cbv zeta in Hin, Hmax.
  eexists. split; [reflexivity|]. split.
  - change (dist t0 :: map dist ts) with (map dist (t0 :: ts)) in Hin.
    apply in_map_iff in Hin. destruct Hin as [t [Ht Ht0]].
    exists t. split; [exact Ht0 | symmetry; exact Ht].
  - intros t Ht. apply Hmax.
    change (dist t0 :: map dist ts) with (map dist (t0 :: ts)).
    apply (in_map dist), Ht.
Qed.

Lemma greatest_distance_empty {S} (s : S) :
  Swervepy.greatest_distance_from_translations [] s = mkRun [] s (inl ValueError).
Proof. reflexivity. Qed.

(** C9.  For a drivetrain with at least one module,
    [follow_trajectory_command] returns a command whose controller was
    given, as drive-base radius, the distance [sqrt(x^2 + y^2)] of some
    module placement that no module placement's distance exceeds: the
    greatest distance from the robot centre to a module. *)
Theorem drive_base_radius_is_greatest_distance
    (self : Swervepy.SwerveDrive) (path : Swervepy.PathPlannerPath)
    (parameters : Swervepy.TrajectoryFollowerParameters)
    (first_path drive_open_loop : option bool) (flip_path : option (unit -> bool)) :
  Swervepy._modules self <> [] ->
  exists command,
    Swervepy.follow_trajectory_command path parameters first_path drive_open_loop
      flip_path self
    = mkRun [] self (inr command)
    /\ (exists m, In m (Swervepy._modules self)
          /\ Swervepy.drive_base_radius (Swervepy.controller command)
             = sqrt (x (placement m) ^ 2 + y (placement m) ^ 2))
    /\ (forall m, In m (Swervepy._modules self) ->
          sqrt (x (placement m) ^ 2 + y (placement m) ^ 2)
          <= Swervepy.drive_base_radius (Swervepy.controller command)).
Proof.
  intros Hne.
  destruct (greatest_distance_spec (S := Swervepy.SwerveDrive)
              (map placement (Swervepy._modules self)) self) as [r [Hrun [Hat Hmax]]].
  { intros Hnil. apply Hne.
    destruct (Swervepy._modules self); [reflexivity | discriminate]. }
  unfold Swervepy.follow_trajectory_command. rewrite bind_get.
  unfold bind at 1. rewrite Hrun. cbn [outcome final calls app].
  assert (Hat' : exists m, In m (Swervepy._modules self)
                   /\ r = sqrt (x (placement m) ^ 2 + y (placement m) ^ 2)).
  { destruct Hat as [t [Hin Hr]]. apply in_map_iff in Hin.
    destruct Hin as [m [<- Hm]]. exists m. split; assumption. }
  assert (Hmax' : forall m, In m (Swervepy._modules self) ->
                    sqrt (x (placement m) ^ 2 + y (placement m) ^ 2) <= r).
  { intros m Hin. apply Hmax. apply (in_map placement), Hin. }
  destruct (default false first_path); eexists; (split; [reflexivity|]);
    cbn [Swervepy.controller Swervepy.beforeStarting Swervepy.drive_base_radius];
    split; assumption.
Qed.

Lemma drive_base_radius_is_greatest_distance_witness :
  exists command,
    Swervepy.follow_trajectory_command (Swervepy.mkPathPlannerPath Pose2d_origin)
      (Swervepy.mkTrajectoryFollowerParameters 4 1 1) None None None
      (Rig.swervepy_drive Rig.square)
    = mkRun [] (Rig.swervepy_drive Rig.square) (inr command)
    /\ forall m, In m Rig.square ->
         sqrt (x (placement m) ^ 2 + y (placement m) ^ 2)
         <= Swervepy.drive_base_radius (Swervepy.controller command).
Proof.
  destruct (drive_base_radius_is_greatest_distance
              (Rig.swervepy_drive Rig.square)
              (Swervepy.mkPathPlannerPath Pose2d_origin)
              (Swervepy.mkTrajectoryFollowerParameters 4 1 1) None None None)
    as [command [Hrun [_ Hmax]]].
  - discriminate.
  - exists command. split; [exact Hrun | exact Hmax].
Defined.

(** Without modules there is no radius: [max] of an empty tuple raises. *)
Lemma follow_trajectory_command_no_modules
    (self : Swervepy.SwerveDrive) (path : Swervepy.PathPlannerPath)
    (parameters : Swervepy.TrajectoryFollowerParameters) :
  Swervepy._modules self = [] ->
  outcome (Swervepy.follow_trajectory_command path parameters None None None self)
  = inl ValueError.
Proof.
  intros Hnil. unfold Swervepy.follow_trajectory_command. rewrite bind_get, Hnil.
  reflexivity.
Qed.

End DriveBaseRadius.

(** ** The default vision callback (C10) *)

Section DefaultCallback.
Import Wpimath Hardware Py Observe Namespace Scheduler.

Lemma for_each_calls {S A} (l : list A) (c : A -> Call) (s : S) :
  for_each l (fun a => call (c a)) s = mkRun (map c l) s (inr tt).
Proof.
  induction l as [|a l IH]; [reflexivity|].
  cbn [for_each]. unfold bind. cbn [call outcome final calls].
  rewrite IH. reflexivity.
Qed.

(** What a successful subsystem.py construction leaves in the object. *)
Lemma swervepy_init_fields (wpimath : Classes) (modules : list SwerveModule)
    (gyro : Gyro) (mv mav : R) (cb : option (Pose2d -> option Pose2d))
    (self : Swervepy.SwerveDrive) :
  outcome (Swervepy.__init__ wpimath modules gyro mv mav cb) = inr self ->
  Swervepy._vision_pose_callback self
  = default Swervepy.default_vision_pose_callback cb
  /\ Swervepy._modules self = modules
  /\ Swervepy.pose self = Pose2d_origin
  /\ corrections (Swervepy._odometry self) = [].
Proof.
  unfold Swervepy.__init__, bind.
  cbn [call outcome final calls].
  rewrite for_each_calls. cbn [outcome final calls].
  destruct (kinematics_class wpimath (length modules)) as [k|];
    cbn [getattr_class ret raise outcome final calls]; [|discriminate].
  destruct (estimator_class wpimath (length modules)) as [f|];
    cbn [getattr_class ret raise outcome final calls]; [|discriminate].
  rewrite for_each_calls. cbn [outcome final calls].
  intros [= <-]. repeat split.
Qed.

Lemma swervelib_init_fields (wpimath : Classes) (modules : list SwerveModule)
    (gyro : Gyro) (mv mav : R) (cb : option (Pose2d -> option Pose2d))
    (self : Swervelib.SwerveDrive) :
  outcome (Swervelib.__init__ wpimath modules gyro mv mav cb) = inr self ->
  Swervelib._vision_pose_callback self
  = default Swervelib.default_vision_pose_callback cb
  /\ Swervelib._modules self = modules
  /\ Swervelib.pose self = Pose2d_origin
  /\ corrections (Swervelib._odometry self) = [].
Proof.
  unfold Swervelib.__init__, bind.
  cbn [call outcome final calls].
  rewrite for_each_calls. cbn [outcome final calls].
  destruct (kinematics_class wpimath (length modules)) as [k|];
    cbn [getattr_class ret raise outcome final calls]; [|discriminate].
  destruct (estimator_class wpimath (length modules)) as [f|];
    cbn [getattr_class ret raise outcome final calls]; [|discriminate].
  rewrite for_each_calls. cbn [outcome final calls].
  intros [= <-]. repeat split.
Qed.

(** Commanding modules leaves the drivetrain object as it was. *)
Lemma swervepy_desire_final (states : list SwerveModuleState)
    (ol rip : option bool) (self : Swervepy.SwerveDrive) :
  final (Swervepy.desire_module_states states ol rip self) = self.
Proof.
  rewrite swervepy_desire_loop. apply (loop_final Swervepy._modules).
Qed.

Lemma swervelib_desire_final (states : list SwerveModuleState)
    (ol rip : option bool) (self : Swervelib.SwerveDrive) :
  final (Swervelib.desire_module_states states ol rip self) = self.
Proof.
  rewrite swervelib_desire_loop. apply (loop_final Swervelib._modules).
Qed.

Lemma swervepy_execute_final (cmd : Swervepy._TeleOpCommand)
    (self : Swervepy.SwerveDrive) :
  final (Swervepy.execute cmd self) = self.
Proof.
  unfold Swervepy.execute. rewrite bind_get. unfold Swervepy.getattr.
  destruct (Swervepy.attrs cmd !! "field_relative") as [fr|]; [|reflexivity].
  rewrite bind_ret_l.
  destruct (Swervepy.attrs cmd !! "open_loop") as [ol|]; [|reflexivity].
  rewrite bind_ret_l.
  change (Swervepy.drive ?t ?r fr ol ?s)
    with (Swervepy.drive_dispatch (Swervepy.ByTranslation t r fr ol) s).
  rewrite swervepy_drive_unfolds. apply swervepy_desire_final.
Qed.

Lemma swervelib_execute_final (cmd : Swervelib._TeleOpCommand)
    (self : Swervelib.SwerveDrive) :
  final (Swervelib.execute cmd self) = self.
Proof.
  unfold Swervelib.execute. rewrite bind_get. unfold Swervelib.getattr.
  destruct (Swervelib.attrs cmd !! "field_relative") as [fr|]; [|reflexivity].
  rewrite bind_ret_l.
  destruct (Swervelib.attrs cmd !! "open_loop") as [ol|]; [|reflexivity].
  rewrite bind_ret_l.
  rewrite swervelib_drive_unfolds. apply swervelib_desire_final.
Qed.

(** No operation replaces the vision callback, and only [periodic] with a
    callback that answers, or a reset, touches the accepted corrections. *)
Lemma py_step_invariant (op : PyOp) (self : Swervepy.SwerveDrive) :
  (forall p, Swervepy._vision_pose_callback self p = None) ->
  py_corrections self = [] ->
  (forall p, Swervepy._vision_pose_callback (final (py_step op self)) p = None)
  /\ py_corrections (final (py_step op self)) = [].
Proof.
  intros Hcb Hcor. destruct op; cbn [py_step].
  - rewrite swervepy_periodic_run. cbn [final]. rewrite Hcb.
    split; [exact Hcb | exact Hcor].
  - rewrite swervepy_drive_unfolds, swervepy_desire_final. split; assumption.
  - rewrite swervepy_desire_final. split; assumption.
  - rewrite swervepy_execute_final. split; assumption.
  - split; [exact Hcb | reflexivity].
  - unfold Swervepy.reset_modules. rewrite bind_get.
    rewrite for_each_calls.
    split; assumption.
  - split; assumption.
  - split; assumption.
Qed.

Lemma lib_step_invariant (op : LibOp) (self : Swervelib.SwerveDrive) :
  (forall p, Swervelib._vision_pose_callback self p = None) ->
  lib_corrections self = [] ->
  (forall p, Swervelib._vision_pose_callback (final (lib_step op self)) p = None)
  /\ lib_corrections (final (lib_step op self)) = [].
Proof.
  intros Hcb Hcor. destruct op; cbn [lib_step].
  - rewrite swervelib_periodic_run. cbn [final]. rewrite Hcb.
    split; [exact Hcb | exact Hcor].
  - rewrite swervelib_drive_unfolds, swervelib_desire_final. split; assumption.
  - rewrite swervelib_desire_final. split; assumption.
  - rewrite swervelib_execute_final. split; assumption.
  - split; [exact Hcb | reflexivity].
  - split; assumption.
Qed.

Lemma py_after_invariant (ops : list PyOp) (self : Swervepy.SwerveDrive) :
  (forall p, Swervepy._vision_pose_callback self p = None) ->
  py_corrections self = [] ->
  (forall p, Swervepy._vision_pose_callback (py_after ops self) p = None)
  /\ py_corrections (py_after ops self) = [].
Proof.
  revert self. induction ops as [|op ops IH]; intros self Hcb Hcor.
  - split; assumption.
  - destruct (py_step_invariant op self Hcb Hcor) as [Hcb' Hcor'].
    apply (IH _ Hcb' Hcor').
Qed.

Lemma lib_after_invariant (ops : list LibOp) (self : Swervelib.SwerveDrive) :
  (forall p, Swervelib._vision_pose_callback self p = None) ->
  lib_corrections self = [] ->
  (forall p, Swervelib._vision_pose_callback (lib_after ops self) p = None)
  /\ lib_corrections (lib_after ops self) = [].
Proof.
  revert self. induction ops as [|op ops IH]; intros self Hcb Hcor.
  - split; assumption.
  - destruct (lib_step_invariant op self Hcb Hcor) as [Hcb' Hcor'].
    apply (IH _ Hcb' Hcor').
Qed.

Lemma py_step_odometry (op : PyOp) (self : Swervepy.SwerveDrive) :
  (forall p, Swervepy._vision_pose_callback self p = None) ->
  Swervepy._odometry (final (py_step op self))
  = match op with
    | PyPeriodic _ =>
        snd (update (heading (Swervepy._gyro self)) (Swervepy.module_positions self)
               (Swervepy._odometry self))
    | PyResetOdometry P =>
        resetPosition (heading (Swervepy._gyro self)) (Swervepy.module_positions self)
          P (Swervepy._odometry self)
    | _ => Swervepy._odometry self
    end.
Proof.
  intros Hcb. destruct op; cbn [py_step].
  - rewrite swervepy_periodic_run. cbn [final]. rewrite Hcb. reflexivity.
  - rewrite swervepy_drive_unfolds, swervepy_desire_final. reflexivity.
  - rewrite swervepy_desire_final. reflexivity.
  - rewrite swervepy_execute_final. reflexivity.
  - reflexivity.
  - unfold Swervepy.reset_modules. rewrite bind_get.
    rewrite for_each_calls. reflexivity.
  - reflexivity.
  - reflexivity.
Qed.

Lemma lib_step_odometry (op : LibOp) (self : Swervelib.SwerveDrive) :
  (forall p, Swervelib._vision_pose_callback self p = None) ->
  Swervelib._odometry (final (lib_step op self))
  = match op with
    | LibPeriodic _ =>
        snd (update (heading (Swervelib._gyro self)) (Swervelib.module_positions self)
               (Swervelib._odometry self))
    | LibResetOdometry P =>
        resetPosition (heading (Swervelib._gyro self)) (Swervelib.module_positions self)
          P (Swervelib._odometry self)
    | _ => Swervelib._odometry self
    end.
Proof.
  intros Hcb. destruct op; cbn [lib_step].
  - rewrite swervelib_periodic_run. cbn [final]. rewrite Hcb. reflexivity.
  - rewrite swervelib_drive_unfolds, swervelib_desire_final. reflexivity.
  - rewrite swervelib_desire_final. reflexivity.
  - rewrite swervelib_execute_final. reflexivity.
  - reflexivity.
  - reflexivity.
Qed.

(** C10.  A drivetrain constructed without [vision_pose_callback], in
    either file: after any history of periodic calls, drive calls, module
    commands, teleoperation cycles, resets and sensor changes, its callback
    still answers no correction to every pose, its estimator has accepted no
    correction, and the next operation changes the estimator by the fusion
    update if it is [periodic], by the reset if it is [reset_odometry], and
    not at all otherwise. *)
Theorem default_callback_never_corrects
    (wpimath : Classes) (modules : list SwerveModule) (gyro : Gyro) (mv mav : R)
    (py : Swervepy.SwerveDrive) (lib : Swervelib.SwerveDrive)
    (py_ops : list PyOp) (lib_ops : list LibOp) :
  outcome (Swervepy.__init__ wpimath modules gyro mv mav None) = inr py ->
  outcome (Swervelib.__init__ wpimath modules gyro mv mav None) = inr lib ->
  (let s := py_after py_ops py in
   (forall p, Swervepy._vision_pose_callback s p = None)
   /\ py_corrections s = []
   /\ forall op,
        Swervepy._odometry (final (py_step op s))
        = match op with
          | PyPeriodic _ =>
              snd (update (heading (Swervepy._gyro s)) (Swervepy.module_positions s)
                     (Swervepy._odometry s))
          | PyResetOdometry P =>
              resetPosition (heading (Swervepy._gyro s)) (Swervepy.module_positions s)
                P (Swervepy._odometry s)
          | _ => Swervepy._odometry s
          end)
  /\ (let s := lib_after lib_ops lib in
      (forall p, Swervelib._vision_pose_callback s p = None)
      /\ lib_corrections s = []
      /\ forall op,
           Swervelib._odometry (final (lib_step op s))
           = match op with
             | LibPeriodic _ =>
                 snd (update (heading (Swervelib._gyro s))
                        (Swervelib.module_positions s) (Swervelib._odometry s))
             | LibResetOdometry P =>
                 resetPosition (heading (Swervelib._gyro s))
                   (Swervelib.module_positions s) P (Swervelib._odometry s)
             | _ => Swervelib._odometry s
             end).
Proof.
  intros Hpy Hlib.
  apply swervepy_init_fields in Hpy. destruct Hpy as [Hcb [_ [_ Hcor]]].
  apply swervelib_init_fields in Hlib. destruct Hlib as [Hcb' [_ [_ Hcor']]].
  split.
  - intros s.
    destruct (py_after_invariant py_ops py) as [Hs Hc].
    { intros p. rewrite Hcb. reflexivity. }
    { exact Hcor. }
    split; [exact Hs|]. split; [exact Hc|].
    intros op. apply py_step_odometry, Hs.
  - intros s.
    destruct (lib_after_invariant lib_ops lib) as [Hs Hc].
    { intros p. rewrite Hcb'. reflexivity. }
    { exact Hcor'. }
    split; [exact Hs|]. split; [exact Hc|].
    intros op. apply lib_step_odometry, Hs.
Qed.

Lemma default_callback_never_corrects_witness :
  py_corrections
    (py_after [PyPeriodic 1;
               PyDrive (Swervepy.ByTranslation (mkTranslation2d 2 0) 0 true true);
               PyPeriodic 2]
       (Rig.swervepy_drive Rig.square)) = []
  /\ lib_corrections
       (lib_after [LibPeriodic 1; LibDrive (mkTranslation2d 2 0) 0 true true;
                   LibPeriodic 2]
          (Rig.swervelib_drive Rig.square)) = [].
Proof.
  pose proof (default_callback_never_corrects Rig.wpimath_classes Rig.square
                Rig.gyro 4 6 (Rig.swervepy_drive Rig.square)
                (Rig.swervelib_drive Rig.square)
                [PyPeriodic 1;
                 PyDrive (Swervepy.ByTranslation (mkTranslation2d 2 0) 0 true true);
                 PyPeriodic 2]
                [LibPeriodic 1; LibDrive (mkTranslation2d 2 0) 0 true true;
                 LibPeriodic 2]
                eq_refl eq_refl) as H.
  exact (conj (proj1 (proj2 (proj1 H))) (proj1 (proj2 (proj2 H)))).
Defined.

(** With a callback that does answer, [periodic] does accept a correction:
    the default is what keeps the history empty. *)
Lemma answering_callback_corrects (self : Swervepy.SwerveDrive) (v : Pose2d) (t : R) :
  (forall p, Swervepy._vision_pose_callback self p = Some v) ->
  py_corrections (final (Swervepy.periodic t self))
  = (v, t) :: py_corrections self.
Proof.
  intros Hcb. rewrite swervepy_periodic_run. cbn [final]. rewrite Hcb.
  reflexivity.
Qed.

End DefaultCallback.

(** ** The pose between a reset and the next periodic call *)

Section PoseKept.
Import Wpimath Hardware Py Observe Scheduler.

Lemma py_step_leaves_estimator (op : PyOp) (self : Swervepy.SwerveDrive) :
  py_leaves_estimator op = true ->
  Swervepy._odometry (final (py_step op self)) = Swervepy._odometry self.
Proof.
  destruct op; cbn [py_leaves_estimator py_step]; intros Hq; try discriminate.
  - rewrite swervepy_drive_unfolds, swervepy_desire_final. reflexivity.
  - rewrite swervepy_desire_final. reflexivity.
  - rewrite swervepy_execute_final. reflexivity.
  - unfold Swervepy.reset_modules. rewrite bind_get, for_each_calls. reflexivity.
  - reflexivity.
  - reflexivity.
Qed.

Lemma lib_step_leaves_estimator (op : LibOp) (self : Swervelib.SwerveDrive) :
  lib_leaves_estimator op = true ->
  Swervelib._odometry (final (lib_step op self)) = Swervelib._odometry self.
Proof.
  destruct op; cbn [lib_leaves_estimator lib_step]; intros Hq; try discriminate.
  - rewrite swervelib_drive_unfolds, swervelib_desire_final. reflexivity.
  - rewrite swervelib_desire_final. reflexivity.
  - rewrite swervelib_execute_final. reflexivity.
  - reflexivity.
Qed.

(** After [reset_odometry(P)] the pose stays [P] through any drive calls,
    module commands, teleoperation cycles and sensor changes, until the next
    [periodic] or reset. *)
Lemma swervepy_pose_kept_until_periodic (ops : list PyOp)
    (self : Swervepy.SwerveDrive) (P : Pose2d) :
  forallb py_leaves_estimator ops = true ->
  Swervepy.pose (py_after ops (final (Swervepy.reset_odometry P self))) = P.
Proof.
  intros Hq.
  assert (Hgen : forall s, Swervepy.pose (py_after ops s) = Swervepy.pose s).
  { induction ops as [|op ops IH]; intros s; [reflexivity|].
    cbn [forallb] in Hq. apply andb_prop in Hq. destruct Hq as [Hop Hq].
    cbn [py_after foldl]. change (foldl _ ?s0 ops) with (py_after ops s0).
    rewrite (IH Hq). unfold Swervepy.pose.
    rewrite py_step_leaves_estimator by exact Hop. reflexivity. }
  rewrite Hgen. reflexivity.
Qed.

Lemma swervelib_pose_kept_until_periodic (ops : list LibOp)
    (self : Swervelib.SwerveDrive) (P : Pose2d) :
  forallb lib_leaves_estimator ops = true ->
  Swervelib.pose (lib_after ops (final (Swervelib.reset_odometry P self))) = P.
Proof.
  intros Hq.
  assert (Hgen : forall s, Swervelib.pose (lib_after ops s) = Swervelib.pose s).
  { induction ops as [|op ops IH]; intros s; [reflexivity|].
    cbn [forallb] in Hq. apply andb_prop in Hq. destruct Hq as [Hop Hq].
    cbn [lib_after foldl]. change (foldl _ ?s0 ops) with (lib_after ops s0).
    rewrite (IH Hq). unfold Swervelib.pose.
    rewrite lib_step_leaves_estimator by exact Hop. reflexivity. }
  rewrite Hgen. reflexivity.
Qed.

End PoseKept.

(** ** More on the fan-out: mismatched lengths, what is left untouched *)

Section FanOutEdges.
Import Wpimath Hardware Py Observe.


Lemma swervepy_one_command_per_module_witness :
  commanded_modules
    (calls (Swervepy.desire_module_states (Rig.states_of [1; 2; 3]) None None
              (Rig.swervepy_drive Rig.triangle)))
  = [0; 1; 2]%nat.
Proof.
  exact (proj1 (proj2 (swervepy_one_command_per_module
                         (Rig.swervepy_drive Rig.triangle)
                         (Rig.states_of [1; 2; 3]) None None eq_refl))).
Defined.





(** system.py with exactly four modules and four states: modules 0 to 3 are
    each told their desaturated state once, in order, with both flags, and
    nothing is raised. *)
Theorem swervelib_four_modules_each_commanded_once
    (self : Swervelib.SwerveDrive) (states : list SwerveModuleState)
    (ol rip : option bool) :
  length (Swervelib._modules self) = 4%nat -> length states = 4%nat ->
  let r := Swervelib.desire_module_states states ol rip self in
  outcome r = inr tt
  /\ commanded_modules (calls r) = [0; 1; 2; 3]%nat
  /\ commanded_states (calls r)
     = desaturateWheelSpeeds states (Swervelib.max_velocity self)
  /\ forall c, In c (calls r) ->
       exists i st, c = ModuleDesireState i st (default false ol) (default true rip).
Proof.
  intros Hm Hs r.
  assert (Hflags : forall c, In c (calls r) ->
            exists i st,
              c = ModuleDesireState i st (default false ol) (default true rip))
    by (intros c; apply swervelib_calls_carry_flags).
  repeat split; [| | |exact Hflags]; subst r;
    rewrite swervelib_fan_out_four by assumption; cbn [outcome calls].
  - reflexivity.
  - rewrite commanded_modules_fan_out, length_desaturate, Hs. reflexivity.
  - apply commanded_states_fan_out.
Qed.

Lemma swervelib_four_modules_each_commanded_once_witness :
  commanded_modules
    (calls (Swervelib.desire_module_states (Rig.states_of [1; 2; 3; 4]) None None
              (Rig.swervelib_drive Rig.square)))
  = [0; 1; 2; 3]%nat.
Proof.
  exact (proj1 (proj2 (swervelib_four_modules_each_commanded_once
                         (Rig.swervelib_drive Rig.square)
                         (Rig.states_of [1; 2; 3; 4]) None None
                         eq_refl eq_refl))).
Defined.

(** system.py with N < 4 modules and N states, for every such N: all N
    modules are told their desaturated state, in order, and then the call
    raises [IndexError]. *)
Theorem swervelib_under_four_modules_raises
    (self : Swervelib.SwerveDrive) (states : list SwerveModuleState)
    (ol rip : option bool) :
  (length (Swervelib._modules self) < 4)%nat ->
  length states = length (Swervelib._modules self) ->
  let r := Swervelib.desire_module_states states ol rip self in
  outcome r = inl IndexError
  /\ commanded_modules (calls r) = seq 0 (length (Swervelib._modules self))
  /\ commanded_states (calls r)
     = desaturateWheelSpeeds states (Swervelib.max_velocity self).
Proof.
  intros Hm Hs r. subst r.
  rewrite swervelib_fan_out_short by assumption. cbn [outcome calls].
  split; [reflexivity|]. split.
  - rewrite commanded_modules_fan_out, length_desaturate, Hs. reflexivity.
  - apply commanded_states_fan_out.
Qed.

Lemma swervelib_under_four_modules_raises_witness :
  outcome (Swervelib.desire_module_states (Rig.states_of [1; 2]) None None
             (Rig.swervelib_drive (take 2 Rig.triangle)))
  = inl IndexError.
Proof.
  refine (proj1 (swervelib_under_four_modules_raises
                   (Rig.swervelib_drive (take 2 Rig.triangle))
                   (Rig.states_of [1; 2]) None None _ eq_refl)).
  simpl. lia.
Defined.

(** system.py with N >= 4 modules and N states, for every such N: exactly
    modules 0 to 3 are told a state; no module of index 4 or more is told
    anything, and nothing is raised. *)
Theorem swervelib_modules_past_four_untold
    (self : Swervelib.SwerveDrive) (states : list SwerveModuleState)
    (ol rip : option bool) :
  (4 <= length (Swervelib._modules self))%nat ->
  length states = length (Swervelib._modules self) ->
  let r := Swervelib.desire_module_states states ol rip self in
  outcome r = inr tt
  /\ commanded_modules (calls r) = [0; 1; 2; 3]%nat
  /\ forall i st o rp,
       In (ModuleDesireState i st o rp) (calls r) -> (i < 4)%nat.
Proof.
  intros Hm Hs r.
  assert (Hidx : forall i st o rp,
            In (ModuleDesireState i st o rp) (calls r) -> (i < 4)%nat).
  { intros i st o rp Hin. subst r. rewrite swervelib_desire_loop in Hin.
    apply (loop_calls Swervelib._modules) in Hin.
    destruct Hin as [i' [st' [Heq [_ Hi]]]].
    injection Heq as -> _ _ _. apply in_seq in Hi. lia. }
  split; [|split; [|exact Hidx]]; subst r;
    rewrite swervelib_fan_out_long by assumption; cbn [outcome calls].
  - reflexivity.
  - rewrite commanded_modules_fan_out, length_take, length_desaturate, Hs.
    replace (4 `min` length (Swervelib._modules self))%nat with 4%nat by lia.
    reflexivity.
Qed.

Lemma swervelib_modules_past_four_untold_witness :
  commanded_modules
    (calls (Swervelib.desire_module_states
              (Rig.states_of [1; 2; 3; 4; 5; 6]) None None
              (Rig.swervelib_drive Rig.hexagon)))
  = [0; 1; 2; 3]%nat.
Proof.
  refine (proj1 (proj2 (swervelib_modules_past_four_untold
                          (Rig.swervelib_drive Rig.hexagon)
                          (Rig.states_of [1; 2; 3; 4; 5; 6]) None None _ eq_refl))).
  simpl. lia.
Defined.


(** subsystem.py: when the inverse kinematics returns one state per module,
    a [drive] by either overload tells every module, once and in order, the
    desaturated inverse-kinematics state of the composed chassis speed, with
    the call's open-loop flag and without in-place rotation, and raises
    nothing. *)
Theorem swervepy_drive_commands_every_module
    (self : Swervepy.SwerveDrive) (args : Swervepy.DriveArgs) :
  length (toSwerveModuleStates (Swervepy._kinematics self)
            (composed_speeds (heading (Swervepy._gyro self)) args))
  = length (Swervepy._modules self) ->
  Swervepy.drive_dispatch args self
  = mkRun (fan_out
             (desaturateWheelSpeeds
                (toSwerveModuleStates (Swervepy._kinematics self)
                   (composed_speeds (heading (Swervepy._gyro self)) args))
                (Swervepy.max_velocity self))
             (open_loop_of args) false)
          self (inr tt).
Proof.
  intros Hlen. rewrite swervepy_drive_unfolds.
  rewrite swervepy_fan_out by exact Hlen. reflexivity.
Qed.

Lemma swervepy_drive_commands_every_module_witness :
  commanded_modules
    (calls (Swervepy.drive_dispatch
              (Swervepy.ByChassisSpeeds (mkChassisSpeeds 2 0 0) true)
              (Rig.swervepy_drive Rig.square)))
  = [0; 1; 2; 3]%nat.
Proof.
  rewrite (swervepy_drive_commands_every_module
             (Rig.swervepy_drive Rig.square)
             (Swervepy.ByChassisSpeeds (mkChassisSpeeds 2 0 0) true) eq_refl).
  cbn [calls]. rewrite commanded_modules_fan_out, length_desaturate.
  reflexivity.
Defined.

End FanOutEdges.

(** ** Construction *)

Section Construction.
Import Wpimath Hardware Py Observe Namespace.

Lemma imap_index_seq {A} (l : list A) (k : nat) :
  imap (fun i (_ : A) => (k + i)%nat) l = seq k (length l).
Proof.
  revert k. induction l as [|a l IH]; intros k; [reflexivity|].
  cbn [imap length seq]. f_equal; [lia|].
  rewrite <- (IH (Datatypes.S k)). apply imap_ext. intros i x _. simpl. lia.
Qed.

Lemma enumerate_indices {A} (l : list A) :
  imap (fun i (_ : A) => i) l = seq 0 (length l).
Proof. apply (imap_index_seq l 0). Qed.

(** subsystem.py [__init__], written out. *)
Lemma swervepy_init_run (wpimath : Classes) (modules : list SwerveModule)
    (gyro : Gyro) (mv mav : R) (cb : option (Pose2d -> option Pose2d)) :
  Swervepy.__init__ wpimath modules gyro mv mav cb
  = match kinematics_class wpimath (length modules),
          estimator_class wpimath (length modules) with
    | Some k, Some f =>
        mkRun (Sleep 1 :: map ModuleReset (seq 0 (length modules))
               ++ [GyroZeroHeading]
               ++ map (fun i => PutData ("Module " +:+ pretty i))
                    (seq 0 (length modules))
               ++ [PutData "Field"])
          tt
          (inr (Swervepy.mkSwerveDrive modules (Gyro_zero_heading gyro)
                  (default Swervepy.default_vision_pose_callback cb) mv mav
                  (k (map placement modules))
                  (PoseEstimator_new f (k (map placement modules))
                     Rotation2d_zero (map module_position modules)
                     Pose2d_origin)
                  None))
    | _, _ =>
        mkRun (Sleep 1 :: map ModuleReset (seq 0 (length modules))
               ++ [GyroZeroHeading]) tt (inl AttributeError)
    end.
Proof.
  unfold Swervepy.__init__, bind.
  cbn [call outcome final calls].
  rewrite for_each_calls. cbn [outcome final calls]. unfold range.
  destruct (kinematics_class wpimath (length modules)) as [k|];
    cbn [getattr_class ret raise outcome final calls].
  2:{ rewrite app_nil_r. reflexivity. }
  destruct (estimator_class wpimath (length modules)) as [f|];
    cbn [getattr_class ret raise outcome final calls].
  2:{ rewrite !app_nil_r. reflexivity. }
  rewrite for_each_calls, enumerate_indices. cbn [outcome final calls].
  rewrite !app_nil_r. cbn [app].
  f_equal; rewrite <- ?app_assoc; reflexivity.
Qed.

(** system.py [__init__], written out. *)
Lemma swervelib_init_run (wpimath : Classes) (modules : list SwerveModule)
    (gyro : Gyro) (mv mav : R) (cb : option (Pose2d -> option Pose2d)) :
  Swervelib.__init__ wpimath modules gyro mv mav cb
  = match kinematics_class wpimath (length modules),
          estimator_class wpimath (length modules) with
    | Some k, Some f =>
        mkRun (Sleep 1 :: map ModuleReset (seq 0 (length modules))
               ++ [GyroZeroHeading]
               ++ map (fun i => PutData ("Module " +:+ pretty i))
                    (seq 0 (length modules)))
          tt
          (inr (Swervelib.mkSwerveDrive modules (Gyro_zero_heading gyro)
                  (default Swervelib.default_vision_pose_callback cb) mv mav
                  (k (map placement modules))
                  (PoseEstimator_new f (k (map placement modules))
                     Rotation2d_zero (map module_position modules)
                     Pose2d_origin)))
    | _, _ =>
        mkRun (Sleep 1 :: map ModuleReset (seq 0 (length modules))
               ++ [GyroZeroHeading]) tt (inl AttributeError)
    end.
Proof.
  unfold Swervelib.__init__, bind.
  cbn [call outcome final calls].
  rewrite for_each_calls. cbn [outcome final calls]. unfold range.
  destruct (kinematics_class wpimath (length modules)) as [k|];
    cbn [getattr_class ret raise outcome final calls].
  2:{ rewrite app_nil_r. reflexivity. }
  destruct (estimator_class wpimath (length modules)) as [f|];
    cbn [getattr_class ret raise outcome final calls].
  2:{ rewrite !app_nil_r. reflexivity. }
  rewrite for_each_calls, enumerate_indices. cbn [outcome final calls].
  rewrite !app_nil_r. cbn [app].
  f_equal; rewrite <- ?app_assoc; reflexivity.
Qed.

(** In both files the constructor first sleeps one second, then resets
    every module once in tuple order, then zeroes the gyro, whatever
    follows; it raises [AttributeError] exactly when wpimath has no
    kinematics class or no estimator class for the module count, and then
    nothing has been published to the dashboard; it raises nothing else. *)
Theorem construction_settles_resets_then_looks_up
    (wpimath : Classes) (modules : list SwerveModule) (gyro : Gyro) (mv mav : R)
    (cb : option (Pose2d -> option Pose2d)) :
  let before_lookup :=
    Sleep 1 :: map ModuleReset (seq 0 (length modules)) ++ [GyroZeroHeading] in
  let missing :=
    kinematics_class wpimath (length modules) = None
    \/ estimator_class wpimath (length modules) = None in
  (let r := Swervepy.__init__ wpimath modules gyro mv mav cb in
   take (length before_lookup) (calls r) = before_lookup
   /\ (outcome r = inl AttributeError <-> missing)
   /\ (missing -> calls r = before_lookup)
   /\ (~ missing -> exists self, outcome r = inr self))
  /\ (let r := Swervelib.__init__ wpimath modules gyro mv mav cb in
      take (length before_lookup) (calls r) = before_lookup
      /\ (outcome r = inl AttributeError <-> missing)
      /\ (missing -> calls r = before_lookup)
      /\ (~ missing -> exists self, outcome r = inr self)).
Proof.
  intros before_lookup missing. split.
  - intros r. subst r. rewrite swervepy_init_run.
    destruct (kinematics_class wpimath (length modules)) as [k|] eqn:Hk;
      [destruct (estimator_class wpimath (length modules)) as [f|] eqn:Hf|];
      cbn [outcome calls]; subst missing before_lookup.
    + split; [|split; [|split]].
      * rewrite (app_assoc (map ModuleReset _) [GyroZeroHeading]).
        exact (take_app_length
                 (Sleep 1 :: map ModuleReset (seq 0 (length modules))
                  ++ [GyroZeroHeading]) _).
      * split; [discriminate | intros [H|H]; discriminate].
      * intros [H|H]; discriminate.
      * intros _. eexists. reflexivity.
    + split; [apply firstn_all | split; [|split]].
      * split; [intros _; right; reflexivity | reflexivity].
      * reflexivity.
      * intros Hn. exfalso. apply Hn. right. reflexivity.
    + split; [apply firstn_all | split; [|split]].
      * split; [intros _; left; reflexivity | reflexivity].
      * reflexivity.
      * intros Hn. exfalso. apply Hn. left. reflexivity.
  - intros r. subst r. rewrite swervelib_init_run.
    destruct (kinematics_class wpimath (length modules)) as [k|] eqn:Hk;
      [destruct (estimator_class wpimath (length modules)) as [f|] eqn:Hf|];
      cbn [outcome calls]; subst missing before_lookup.
    + split; [|split; [|split]].
      * rewrite (app_assoc (map ModuleReset _) [GyroZeroHeading]).
        exact (take_app_length
                 (Sleep 1 :: map ModuleReset (seq 0 (length modules))
                  ++ [GyroZeroHeading]) _).
      * split; [discriminate | intros [H|H]; discriminate].
      * intros [H|H]; discriminate.
      * intros _. eexists. reflexivity.
    + split; [apply firstn_all | split; [|split]].
      * split; [intros _; right; reflexivity | reflexivity].
      * reflexivity.
      * intros Hn. exfalso. apply Hn. right. reflexivity.
    + split; [apply firstn_all | split; [|split]].
      * split; [intros _; left; reflexivity | reflexivity].
      * reflexivity.
      * intros Hn. exfalso. apply Hn. left. reflexivity.
Qed.

Lemma published_keys_app (l1 l2 : list Call) :
  omap (fun c => match c with PutData k => Some k | _ => None end) (l1 ++ l2)
  = omap (fun c => match c with PutData k => Some k | _ => None end) l1
    ++ omap (fun c => match c with PutData k => Some k | _ => None end) l2.
Proof.
  induction l1 as [|c l1 IH]; [reflexivity|].
  cbn [app omap list_omap]. destruct c; cbn; rewrite ?IH; reflexivity.
Qed.

Lemma published_keys_resets (l : list nat) :
  omap (fun c => match c with PutData k => Some k | _ => None end)
       (map ModuleReset l) = [].
Proof. induction l as [|i l IH]; [reflexivity | exact IH]. Qed.

Lemma published_keys_putdata (g : nat -> string) (l : list nat) :
  omap (fun c => match c with PutData k => Some k | _ => None end)
       (map (fun i => PutData (g i)) l) = map g l.
Proof.
  induction l as [|i l IH]; [reflexivity|].
  cbn [map]. change (g i :: omap (fun c => match c with PutData k => Some k | _ => None end)
                              (map (fun i => PutData (g i)) l) = g i :: map g l).
  rewrite IH. reflexivity.
Qed.

(** A successful subsystem.py construction keeps the module tuple and the two
    limits as given, stores the given callback, starts the pose at the
    origin with nothing shown on the field yet, and has published one
    dashboard entry per module, "Module 0" to "Module N-1" in order, and
    then the field. *)
Theorem swervepy_constructed_drivetrain
    (wpimath : Classes) (modules : list SwerveModule) (gyro : Gyro) (mv mav : R)
    (callback : Pose2d -> option Pose2d) (self : Swervepy.SwerveDrive) :
  outcome (Swervepy.__init__ wpimath modules gyro mv mav (Some callback))
  = inr self ->
  Swervepy._modules self = modules
  /\ Swervepy.max_velocity self = mv
  /\ Swervepy.max_angular_velocity self = mav
  /\ Swervepy._vision_pose_callback self = callback
  /\ Swervepy.pose self = Pose2d_origin
  /\ Swervepy.field self = None
  /\ omap (fun c => match c with PutData k => Some k | _ => None end)
       (calls (Swervepy.__init__ wpimath modules gyro mv mav (Some callback)))
     = map (fun i => "Module " +:+ pretty i) (seq 0 (length modules)) ++ ["Field"].
Proof.
  rewrite swervepy_init_run.
  destruct (kinematics_class wpimath (length modules)) as [k|];
    [destruct (estimator_class wpimath (length modules)) as [f|]|];
    cbn [outcome calls]; try discriminate.
  intros [= <-]. repeat split.
  change (Sleep 1 :: ?l) with ([Sleep 1] ++ l).
  rewrite !published_keys_app, published_keys_resets, published_keys_putdata.
  reflexivity.
Qed.

Lemma swervepy_constructed_drivetrain_witness :
  Swervepy._modules (Rig.swervepy_drive Rig.square) = Rig.square
  /\ Swervepy.pose (Rig.swervepy_drive Rig.square) = Pose2d_origin.
Proof.
  pose proof (swervepy_constructed_drivetrain Rig.wpimath_classes Rig.square
                Rig.gyro 4 6 Swervepy.default_vision_pose_callback
                (Rig.swervepy_drive Rig.square) eq_refl) as H.
  exact (conj (proj1 H) (proj1 (proj2 (proj2 (proj2 (proj2 H)))))).
Defined.

End Construction.

(** ** The teleoperation command between cycles *)

Section OperatorFacts.
Import Wpimath Hardware Py Observe Operator.

Lemma construction_settles_resets_then_looks_up_witness :
  exists self,
    outcome (Swervepy.__init__ Rig.wpimath_classes Rig.square Rig.gyro 4 6 None)
    = inr self.
Proof.
  refine (proj2 (proj2 (proj2 (proj1
            (construction_settles_resets_then_looks_up Rig.wpimath_classes
               Rig.square Rig.gyro 4 6 None)))) _).
  intros [H | H]; discriminate H.
Defined.

(** subsystem.py: [toggle_open_loop] on a command that has the flag returns
    normally, negates the flag [execute] reads and leaves the frame flag; a
    second toggle gives back the command as it was.  The same for
    [toggle_field_relative]. *)
Theorem swervepy_toggles_flip_and_restore
    (cmd : Swervepy._TeleOpCommand) (fr ol : bool) :
  Swervepy.attrs cmd !! "field_relative" = Some fr ->
  Swervepy.attrs cmd !! "open_loop" = Some ol ->
  (let once := Swervepy.toggle_open_loop cmd in
   outcome once = inr tt
   /\ Swervepy.attrs (final once) !! "open_loop" = Some (negb ol)
   /\ Swervepy.attrs (final once) !! "field_relative" = Some fr
   /\ final (Swervepy.toggle_open_loop (final once)) = cmd)
  /\ (let once := Swervepy.toggle_field_relative cmd in
      outcome once = inr tt
      /\ Swervepy.attrs (final once) !! "field_relative" = Some (negb fr)
      /\ Swervepy.attrs (final once) !! "open_loop" = Some ol
      /\ final (Swervepy.toggle_field_relative (final once)) = cmd).
Proof.
  intros Hfr Hol. split.
  - assert (Hrun : Swervepy.toggle_open_loop cmd
                   = mkRun [] (Swervepy.setattr cmd "open_loop" (negb ol)) (inr tt)).
    { unfold Swervepy.toggle_open_loop. rewrite bind_get.
      unfold Swervepy.getattr. rewrite Hol, bind_ret_l. reflexivity. }
    cbv zeta. rewrite Hrun. cbn [outcome final].
    split; [reflexivity|]. split; [|split].
    + unfold Swervepy.setattr. cbn [Swervepy.attrs]. apply lookup_insert_eq.
    + unfold Swervepy.setattr. cbn [Swervepy.attrs].
      rewrite lookup_insert_ne by discriminate. exact Hfr.
    + unfold Swervepy.toggle_open_loop. rewrite bind_get.
      rewrite swervepy_getattr_setattr, bind_ret_l.
      unfold put, Swervepy.setattr. cbn [final Swervepy.attrs
        Swervepy._translation Swervepy._strafe Swervepy._rotation].
      rewrite insert_insert_eq, negb_involutive, (insert_id _ _ _ Hol).
      destruct cmd; reflexivity.
  - assert (Hrun : Swervepy.toggle_field_relative cmd
                   = mkRun [] (Swervepy.setattr cmd "field_relative" (negb fr))
                       (inr tt)).
    { unfold Swervepy.toggle_field_relative. rewrite bind_get.
      unfold Swervepy.getattr. rewrite Hfr, bind_ret_l. reflexivity. }
    cbv zeta. rewrite Hrun. cbn [outcome final].
    split; [reflexivity|]. split; [|split].
    + unfold Swervepy.setattr. cbn [Swervepy.attrs]. apply lookup_insert_eq.
    + unfold Swervepy.setattr. cbn [Swervepy.attrs].
      rewrite lookup_insert_ne by discriminate. exact Hol.
    + unfold Swervepy.toggle_field_relative. rewrite bind_get.
      rewrite swervepy_getattr_setattr, bind_ret_l.
      unfold put, Swervepy.setattr. cbn [final Swervepy.attrs
        Swervepy._translation Swervepy._strafe Swervepy._rotation].
      rewrite insert_insert_eq, negb_involutive, (insert_id _ _ _ Hfr).
      destruct cmd; reflexivity.
Qed.

Lemma swervepy_toggles_flip_and_restore_witness :
  final (Swervepy.toggle_open_loop
           (final (Swervepy.toggle_open_loop Rig.swervepy_teleop)))
  = Rig.swervepy_teleop.
Proof.
  exact (proj2 (proj2 (proj2 (proj1
           (swervepy_toggles_flip_and_restore Rig.swervepy_teleop false false
              eq_refl eq_refl))))).
Defined.

(** A toggle on a command that lacks the flag raises [AttributeError] and
    leaves the command as it was. *)
Theorem swervepy_toggle_without_flag_raises (cmd : Swervepy._TeleOpCommand) :
  Swervepy.attrs cmd !! "open_loop" = None ->
  Swervepy.toggle_open_loop cmd = mkRun [] cmd (inl AttributeError).
Proof.
  intros Hno. unfold Swervepy.toggle_open_loop. rewrite bind_get.
  unfold Swervepy.getattr. rewrite Hno. reflexivity.
Qed.

(** The dashboard writes of each file, for any key. *)
Lemma swervepy_dashboard_write_cases (name : string) (v : bool)
    (cmd : Swervepy._TeleOpCommand) :
  Swervepy.dashboard_write (Swervepy.initSendable []) name v cmd
  = if decide ("Field Relative" = name)
    then Swervepy.setattr cmd "field_relative" v
    else if decide ("Open Loop" = name)
         then Swervepy.setattr cmd "drive_open_loop" v
         else cmd.
Proof.
  unfold Swervepy.dashboard_write, Swervepy.initSendable.
  cbn [app find Swervepy.key].
  destruct (decide ("Field Relative" = name)) as [E1|E1].
  - rewrite bool_decide_eq_true_2 by exact E1. reflexivity.
  - rewrite bool_decide_eq_false_2 by exact E1.
    destruct (decide ("Open Loop" = name)) as [E2|E2].
    + rewrite bool_decide_eq_true_2 by exact E2. reflexivity.
    + rewrite bool_decide_eq_false_2 by exact E2. reflexivity.
Qed.

Lemma swervelib_dashboard_write_cases (name : string) (v : bool)
    (cmd : Swervelib._TeleOpCommand) :
  Swervelib.dashboard_write (Swervelib.initSendable []) name v cmd
  = if decide ("Field Relative" = name)
    then Swervelib.setattr cmd "field_relative" v
    else if decide ("Open Loop" = name)
         then Swervelib.setattr cmd "open_loop" v
         else cmd.
Proof.
  unfold Swervelib.dashboard_write, Swervelib.initSendable.
  cbn [app find Swervelib.key].
  destruct (decide ("Field Relative" = name)) as [E1|E1].
  - rewrite bool_decide_eq_true_2 by exact E1. reflexivity.
  - rewrite bool_decide_eq_false_2 by exact E1.
    destruct (decide ("Open Loop" = name)) as [E2|E2].
    + rewrite bool_decide_eq_true_2 by exact E2. reflexivity.
    + rewrite bool_decide_eq_false_2 by exact E2. reflexivity.
Qed.

(** Both flags stay present and the sticks stay the same through every
    event. *)
Lemma swervepy_event_keeps_flags (e : Event) (cmd : Swervepy._TeleOpCommand) :
  is_Some (Swervepy.attrs cmd !! "field_relative") ->
  is_Some (Swervepy.attrs cmd !! "open_loop") ->
  is_Some (Swervepy.attrs (py_event e cmd) !! "field_relative")
  /\ is_Some (Swervepy.attrs (py_event e cmd) !! "open_loop")
  /\ Swervepy._translation (py_event e cmd) = Swervepy._translation cmd
  /\ Swervepy._strafe (py_event e cmd) = Swervepy._strafe cmd
  /\ Swervepy._rotation (py_event e cmd) = Swervepy._rotation cmd.
Proof.
  intros [fr Hfr] [ol Hol]. destruct e as [| |name v]; cbn [py_event].
  - unfold Swervepy.toggle_field_relative. rewrite bind_get.
    unfold Swervepy.getattr. rewrite Hfr, bind_ret_l.
    unfold put, Swervepy.setattr. cbn. rewrite lookup_insert_eq.
    rewrite lookup_insert_ne by discriminate. rewrite Hol. repeat split; eauto.
  - unfold Swervepy.toggle_open_loop. rewrite bind_get.
    unfold Swervepy.getattr. rewrite Hol, bind_ret_l.
    unfold put, Swervepy.setattr. cbn. rewrite lookup_insert_eq.
    rewrite lookup_insert_ne by discriminate. rewrite Hfr. repeat split; eauto.
  - rewrite swervepy_dashboard_write_cases.
    destruct (decide ("Field Relative" = name));
      [|destruct (decide ("Open Loop" = name))];
      unfold Swervepy.setattr; cbn;
      rewrite ?lookup_insert_eq, ?lookup_insert_ne by discriminate;
      rewrite ?Hfr, ?Hol; repeat split; eauto.
Qed.

Lemma swervelib_event_keeps_flags (e : Event) (cmd : Swervelib._TeleOpCommand) :
  is_Some (Swervelib.attrs cmd !! "field_relative") ->
  is_Some (Swervelib.attrs cmd !! "open_loop") ->
  is_Some (Swervelib.attrs (lib_event e cmd) !! "field_relative")
  /\ is_Some (Swervelib.attrs (lib_event e cmd) !! "open_loop")
  /\ Swervelib._translation (lib_event e cmd) = Swervelib._translation cmd
  /\ Swervelib._strafe (lib_event e cmd) = Swervelib._strafe cmd
  /\ Swervelib._rotation (lib_event e cmd) = Swervelib._rotation cmd.
Proof.
  intros [fr Hfr] [ol Hol]. destruct e as [| |name v]; cbn [lib_event].
  - unfold Swervelib.toggle_field_relative. rewrite bind_get.
    unfold Swervelib.getattr. rewrite Hfr, bind_ret_l.
    unfold put, Swervelib.setattr. cbn. rewrite lookup_insert_eq.
    rewrite lookup_insert_ne by discriminate. rewrite Hol. repeat split; eauto.
  - unfold Swervelib.toggle_open_loop. rewrite bind_get.
    unfold Swervelib.getattr. rewrite Hol, bind_ret_l.
    unfold put, Swervelib.setattr. cbn. rewrite lookup_insert_eq.
    rewrite lookup_insert_ne by discriminate. rewrite Hfr. repeat split; eauto.
  - rewrite swervelib_dashboard_write_cases.
    destruct (decide ("Field Relative" = name));
      [|destruct (decide ("Open Loop" = name))];
      unfold Swervelib.setattr; cbn;
      rewrite ?lookup_insert_eq, ?lookup_insert_ne by discriminate;
      rewrite ?Hfr, ?Hol; repeat split; eauto.
Qed.

(** A command made by the constructor never fails to find its flags: after
    any sequence of toggles and dashboard writes, to any key, [execute] is a
    [drive] of the sticks scaled by the two limits with some frame flag and
    some open-loop flag; it never raises [AttributeError] on its own.  Both
    files. *)
Theorem execute_always_finds_its_flags
    (events : list Event) (translation strafe rotation : unit -> R)
    (field_relative open_loop : bool) :
  (exists fr ol, forall self : Swervepy.SwerveDrive,
     Swervepy.execute
       (py_events events
          (Swervepy.teleop_command translation strafe rotation field_relative
             open_loop)) self
     = Swervepy.drive
         (Translation2d_mul (mkTranslation2d (translation tt) (strafe tt))
            (Swervepy.max_velocity self))
         (rotation tt * Swervepy.max_angular_velocity self) fr ol self)
  /\ (exists fr ol, forall self : Swervelib.SwerveDrive,
        Swervelib.execute
          (lib_events events
             (Swervelib._TeleOpCommand__init__ translation strafe rotation
                field_relative open_loop)) self
        = Swervelib.drive
            (Translation2d_mul (mkTranslation2d (translation tt) (strafe tt))
               (Swervelib.max_velocity self))
            (rotation tt * Swervelib.max_angular_velocity self) fr ol self).
Proof.
  split.
  - assert (Hinv : forall cmd,
              is_Some (Swervepy.attrs cmd !! "field_relative") ->
              is_Some (Swervepy.attrs cmd !! "open_loop") ->
              is_Some (Swervepy.attrs (py_events events cmd) !! "field_relative")
              /\ is_Some (Swervepy.attrs (py_events events cmd) !! "open_loop")
              /\ Swervepy._translation (py_events events cmd)
                 = Swervepy._translation cmd
              /\ Swervepy._strafe (py_events events cmd) = Swervepy._strafe cmd
              /\ Swervepy._rotation (py_events events cmd)
                 = Swervepy._rotation cmd).
    { induction events as [|e es IH]; intros cmd Hfr Hol.
      - repeat split; assumption.
      - destruct (swervepy_event_keeps_flags e cmd Hfr Hol)
          as [Hfr' [Hol' [Ht [Hs Hr]]]].
        destruct (IH (py_event e cmd) Hfr' Hol') as [Hfr2 [Hol2 [Ht2 [Hs2 Hr2]]]].
        cbn [py_events foldl]. change (foldl _ ?c es) with (py_events es c).
        repeat split; try assumption; congruence. }
    destruct (Hinv (Swervepy.teleop_command translation strafe rotation
                      field_relative open_loop))
      as [[fr Hfr] [[ol Hol] [Ht [Hs Hr]]]].
    { eexists. reflexivity. }
    { eexists. reflexivity. }
    exists fr, ol. intros self. unfold Swervepy.execute. rewrite bind_get.
    unfold Swervepy.getattr. rewrite Hfr, Hol, !bind_ret_l, Ht, Hs, Hr.
    reflexivity.
  - assert (Hinv : forall cmd,
              is_Some (Swervelib.attrs cmd !! "field_relative") ->
              is_Some (Swervelib.attrs cmd !! "open_loop") ->
              is_Some (Swervelib.attrs (lib_events events cmd) !! "field_relative")
              /\ is_Some (Swervelib.attrs (lib_events events cmd) !! "open_loop")
              /\ Swervelib._translation (lib_events events cmd)
                 = Swervelib._translation cmd
              /\ Swervelib._strafe (lib_events events cmd) = Swervelib._strafe cmd
              /\ Swervelib._rotation (lib_events events cmd)
                 = Swervelib._rotation cmd).
    { induction events as [|e es IH]; intros cmd Hfr Hol.
      - repeat split; assumption.
      - destruct (swervelib_event_keeps_flags e cmd Hfr Hol)
          as [Hfr' [Hol' [Ht [Hs Hr]]]].
        destruct (IH (lib_event e cmd) Hfr' Hol') as [Hfr2 [Hol2 [Ht2 [Hs2 Hr2]]]].
        cbn [lib_events foldl]. change (foldl _ ?c es) with (lib_events es c).
        repeat split; try assumption; congruence. }
    destruct (Hinv (Swervelib._TeleOpCommand__init__ translation strafe rotation
                      field_relative open_loop))
      as [[fr Hfr] [[ol Hol] [Ht [Hs Hr]]]].
    { eexists. reflexivity. }
    { eexists. reflexivity. }
    exists fr, ol. intros self. unfold Swervelib.execute. rewrite bind_get.
    unfold Swervelib.getattr. rewrite Hfr, Hol, !bind_ret_l, Ht, Hs, Hr.
    reflexivity.
Qed.

End OperatorFacts.

(** ** Dashboard round trips *)

Section DashboardRoundTrip.
Import Wpimath Hardware Py Observe Operator.

(** system.py: the dashboard reads back from either property the value it
    last wrote to it; subsystem.py does so for "Field Relative", while a read
    of "Open Loop" after a write still shows the flag as it was before. *)
Theorem dashboard_reads_back_its_writes :
  (forall (cmd : Swervelib._TeleOpCommand) (v : bool),
     lib_dashboard_read (Swervelib.initSendable []) "Open Loop"
       (Swervelib.dashboard_write (Swervelib.initSendable []) "Open Loop" v cmd)
     = Some (inr v)
     /\ lib_dashboard_read (Swervelib.initSendable []) "Field Relative"
          (Swervelib.dashboard_write (Swervelib.initSendable []) "Field Relative"
             v cmd)
        = Some (inr v))
  /\ (forall (cmd : Swervepy._TeleOpCommand) (v : bool),
        py_dashboard_read (Swervepy.initSendable []) "Field Relative"
          (Swervepy.dashboard_write (Swervepy.initSendable []) "Field Relative"
             v cmd)
        = Some (inr v)
        /\ py_dashboard_read (Swervepy.initSendable []) "Open Loop"
             (Swervepy.dashboard_write (Swervepy.initSendable []) "Open Loop" v cmd)
           = py_dashboard_read (Swervepy.initSendable []) "Open Loop" cmd).
Proof.
  split; intros cmd v.
  - destruct (swervelib_dashboard_writes cmd v) as [-> ->].
    unfold lib_dashboard_read, Swervelib.initSendable.
    cbn [app find Swervelib.key bool_decide fmap option_fmap option_map
         Swervelib.getter]. split.
    + change (Some (outcome (Swervelib.getattr
                               (Swervelib.setattr cmd "open_loop" v) "open_loop"
                               (Swervelib.setattr cmd "open_loop" v)))
              = Some (inr v)).
      rewrite swervelib_getattr_setattr. reflexivity.
    + change (Some (outcome (Swervelib.getattr
                               (Swervelib.setattr cmd "field_relative" v)
                               "field_relative"
                               (Swervelib.setattr cmd "field_relative" v)))
              = Some (inr v)).
      rewrite swervelib_getattr_setattr. reflexivity.
  - destruct (swervepy_dashboard_writes cmd v) as [-> ->].
    unfold py_dashboard_read, Swervepy.initSendable. split.
    + change (Some (outcome (Swervepy.getattr
                               (Swervepy.setattr cmd "field_relative" v)
                               "field_relative"
                               (Swervepy.setattr cmd "field_relative" v)))
              = Some (inr v)).
      rewrite swervepy_getattr_setattr. reflexivity.
    + change (Some (outcome (Swervepy.getattr
                               (Swervepy.setattr cmd "drive_open_loop" v)
                               "open_loop"
                               (Swervepy.setattr cmd "drive_open_loop" v)))
              = Some (outcome (Swervepy.getattr cmd "open_loop" cmd))).
      rewrite swervepy_getattr_setattr_other by discriminate.
      unfold Swervepy.getattr.
      destruct (Swervepy.attrs cmd !! "open_loop"); reflexivity.
Qed.

Lemma swervelib_dashboard_write_reaches_execute_witness :
  Swervelib.execute
    (Swervelib.dashboard_write (Swervelib.initSendable []) "Open Loop" true
       Rig.swervelib_teleop) (Rig.swervelib_drive Rig.square)
  = Swervelib.drive (Translation2d_mul (mkTranslation2d 0 0) 4) (0 * 6) false true
      (Rig.swervelib_drive Rig.square).
Proof.
  exact (proj1 (swervelib_dashboard_write_reaches_execute Rig.swervelib_teleop
                  true false false (Rig.swervelib_drive Rig.square)
                  eq_refl eq_refl)).
Defined.

Lemma swervepy_field_relative_write_reaches_execute_witness :
  Swervepy.execute
    (Swervepy.dashboard_write (Swervepy.initSendable []) "Field Relative" true
       Rig.swervepy_teleop) (Rig.swervepy_drive Rig.square)
  = Swervepy.drive (Translation2d_mul (mkTranslation2d 0 0) 4) (0 * 6) true false
      (Rig.swervepy_drive Rig.square).
Proof.
  exact (swervepy_field_relative_write_reaches_execute Rig.swervepy_teleop
           true false (Rig.swervepy_drive Rig.square) eq_refl).
Defined.

End DashboardRoundTrip.

(** ** Trajectory following *)

Section Trajectory.
Import Wpimath Hardware Py Observe.

(** [follow_trajectory_command], written out for a drivetrain with
    modules. *)
Lemma follow_trajectory_command_run
    (self : Swervepy.SwerveDrive) (path : Swervepy.PathPlannerPath)
    (parameters : Swervepy.TrajectoryFollowerParameters)
    (first_path drive_open_loop : option bool) (flip_path : option (unit -> bool)) :
  Swervepy._modules self <> [] ->
  exists radius,
    Swervepy.follow_trajectory_command path parameters first_path drive_open_loop
      flip_path self
    = mkRun [] self
        (inr (Swervepy.mkFollowPathCommand path Swervepy.pose
                Swervepy.robot_relative_speeds
                (fun speeds =>
                   Swervepy.drive_dispatch
                     (Swervepy.ByChassisSpeeds speeds
                        (default false drive_open_loop)))
                (Swervepy.mkPPHolonomicDriveController
                   (Swervepy.mkPIDConstants (Swervepy.xy_kP parameters))
                   (Swervepy.mkPIDConstants (Swervepy.theta_kP parameters))
                   (Swervepy.max_drive_velocity parameters) radius)
                (default (fun _ => false) flip_path)
                (if default false first_path
                 then Some (Swervepy.reset_odometry
                              (Swervepy.getPreviewStartingHolonomicPose path))
                 else None))).
Proof.
  intros Hne.
  destruct (greatest_distance_spec (S := Swervepy.SwerveDrive)
              (map placement (Swervepy._modules self)) self) as [r [Hrun _]].
  { intros Hnil. apply Hne.
    destruct (Swervepy._modules self); [reflexivity | discriminate]. }
  exists r. unfold Swervepy.follow_trajectory_command. rewrite bind_get.
  unfold bind at 1. rewrite Hrun. cbn [outcome final calls app].
  destruct (default false first_path); reflexivity.
Qed.

(** With [first_path=True] the command has a before-start action and running
    it makes the path's starting pose the drivetrain's pose; with
    [first_path] false or omitted there is no before-start action and the
    pose is left to the estimator.  Building the command itself calls nothing
    and changes nothing. *)
Theorem first_path_resets_pose_to_path_start
    (self : Swervepy.SwerveDrive) (path : Swervepy.PathPlannerPath)
    (parameters : Swervepy.TrajectoryFollowerParameters)
    (first_path drive_open_loop : option bool) (flip_path : option (unit -> bool)) :
  Swervepy._modules self <> [] ->
  exists command,
    Swervepy.follow_trajectory_command path parameters first_path drive_open_loop
      flip_path self
    = mkRun [] self (inr command)
    /\ (first_path = Some true ->
        exists before,
          Swervepy.before_starting command = Some before
          /\ forall s, outcome (before s) = inr tt
                       /\ calls (before s) = []
                       /\ Swervepy.pose (final (before s))
                          = Swervepy.getPreviewStartingHolonomicPose path)
    /\ (first_path <> Some true -> Swervepy.before_starting command = None).
Proof.
  intros Hne.
  destruct (follow_trajectory_command_run self path parameters first_path
              drive_open_loop flip_path Hne) as [radius Hrun].
  eexists. split; [exact Hrun|]. cbn [Swervepy.before_starting]. split.
  - intros ->. cbn [default]. eexists. split; [reflexivity|].
    intros s. repeat split.
  - intros Hn. destruct first_path as [[|]|]; cbn [default];
      [congruence | reflexivity | reflexivity].
Qed.

Lemma first_path_resets_pose_to_path_start_witness :
  exists command,
    Swervepy.follow_trajectory_command
      (Swervepy.mkPathPlannerPath (mkPose2d (mkTranslation2d 1 2) Rotation2d_zero))
      (Swervepy.mkTrajectoryFollowerParameters 4 1 1) (Some true) None None
      (Rig.swervepy_drive Rig.square)
    = mkRun [] (Rig.swervepy_drive Rig.square) (inr command)
    /\ exists before, Swervepy.before_starting command = Some before.
Proof.
  destruct (first_path_resets_pose_to_path_start
              (Rig.swervepy_drive Rig.square)
              (Swervepy.mkPathPlannerPath
                 (mkPose2d (mkTranslation2d 1 2) Rotation2d_zero))
              (Swervepy.mkTrajectoryFollowerParameters 4 1 1)
              (Some true) None None)
    as [command [Hrun [Hfirst _]]].
  - discriminate.
  - exists command. split; [exact Hrun|].
    destruct (Hfirst eq_refl) as [before [Hb _]]. exists before. exact Hb.
Defined.

(** The command routes the follower's chassis speed to [drive]'s
    [ChassisSpeeds] overload: its output is [desire_module_states] on the
    inverse kinematics of that speed, with the given open-loop flag (closed
    loop when omitted) and [rotate_in_place=False]; it reads the estimator
    pose and the forward kinematics of the modules' instantaneous states;
    the path is not flipped when [flip_path] is omitted. *)
Theorem trajectory_command_wiring
    (self : Swervepy.SwerveDrive) (path : Swervepy.PathPlannerPath)
    (parameters : Swervepy.TrajectoryFollowerParameters)
    (first_path drive_open_loop : option bool) (flip_path : option (unit -> bool)) :
  Swervepy._modules self <> [] ->
  exists command,
    outcome (Swervepy.follow_trajectory_command path parameters first_path
               drive_open_loop flip_path self) = inr command
    /\ (forall speeds s,
          Swervepy.output command speeds s
          = Swervepy.desire_module_states
              (toSwerveModuleStates (Swervepy._kinematics s) speeds)
              (Some (default false drive_open_loop)) (Some false) s)
    /\ (forall s, Swervepy.pose_supplier command s
                  = getEstimatedPosition (Swervepy._odometry s))
    /\ (forall s, Swervepy.speeds_supplier command s
                  = toChassisSpeeds (Swervepy._kinematics s)
                      (map module_state (Swervepy._modules s)))
    /\ Swervepy.path_to_follow command = path
    /\ Swervepy.max_module_speed (Swervepy.controller command)
       = Swervepy.max_drive_velocity parameters
    /\ (flip_path = None -> Swervepy.should_flip_path command tt = false).
Proof.
  intros Hne.
  destruct (follow_trajectory_command_run self path parameters first_path
              drive_open_loop flip_path Hne) as [radius Hrun].
  eexists. split; [rewrite Hrun; reflexivity|].
  cbn [Swervepy.output Swervepy.pose_supplier Swervepy.speeds_supplier
       Swervepy.path_to_follow Swervepy.controller Swervepy.max_module_speed
       Swervepy.should_flip_path].
  split; [|repeat split].
  - intros speeds s. rewrite swervepy_drive_unfolds.
    cbn [composed_speeds open_loop_of]. destruct speeds; reflexivity.
  - intros ->. reflexivity.
Qed.

Lemma trajectory_command_wiring_witness :
  exists command,
    outcome (Swervepy.follow_trajectory_command
               (Swervepy.mkPathPlannerPath Pose2d_origin)
               (Swervepy.mkTrajectoryFollowerParameters 4 1 1) None None None
               (Rig.swervepy_drive Rig.square)) = inr command
    /\ Swervepy.should_flip_path command tt = false.
Proof.
  destruct (trajectory_command_wiring (Rig.swervepy_drive Rig.square)
              (Swervepy.mkPathPlannerPath Pose2d_origin)
              (Swervepy.mkTrajectoryFollowerParameters 4 1 1) None None None)
    as [command [Hrun [_ [_ [_ [_ [_ Hflip]]]]]]].
  - discriminate.
  - exists command. split; [exact Hrun | exact (Hflip eq_refl)].
Defined.

(** A drivetrain without modules cannot build the command: whatever the
    arguments, [max] of the empty distance tuple raises [ValueError], after
    no call and with the drivetrain unchanged. *)
Theorem trajectory_command_needs_a_module
    (self : Swervepy.SwerveDrive) (path : Swervepy.PathPlannerPath)
    (parameters : Swervepy.TrajectoryFollowerParameters)
    (first_path drive_open_loop : option bool) (flip_path : option (unit -> bool)) :
  Swervepy._modules self = [] ->
  Swervepy.follow_trajectory_command path parameters first_path drive_open_loop
    flip_path self
  = mkRun [] self (inl ValueError).
Proof.
  intros Hnil. unfold Swervepy.follow_trajectory_command. rewrite bind_get, Hnil.
  reflexivity.
Qed.

Lemma trajectory_command_needs_a_module_witness :
  Swervepy.follow_trajectory_command (Swervepy.mkPathPlannerPath Pose2d_origin)
    (Swervepy.mkTrajectoryFollowerParameters 4 1 1) None None None
    (Rig.swervepy_drive [])
  = mkRun [] (Rig.swervepy_drive []) (inl ValueError).
Proof.
  exact (trajectory_command_needs_a_module (Rig.swervepy_drive [])
           (Swervepy.mkPathPlannerPath Pose2d_origin)
           (Swervepy.mkTrajectoryFollowerParameters 4 1 1) None None None
           eq_refl).
Defined.

(** The greatest distance does not depend on the order of the translations:
    permuting the module placements gives the same run, the same radius or
    the same [ValueError].  It is never negative. *)
Theorem greatest_distance_ignores_order {S}
    (l1 l2 : list Translation2d) (s : S) :
  Permutation l1 l2 ->
  Swervepy.greatest_distance_from_translations l1 s
  = Swervepy.greatest_distance_from_translations l2 s
  /\ forall r, outcome (Swervepy.greatest_distance_from_translations l1 s) = inr r ->
       0 <= r.
Proof.
  intros Hperm. split.
  - destruct l1 as [|a l1].
    + apply Permutation_nil in Hperm. subst l2. reflexivity.
    + assert (Hne2 : l2 <> []).
      { intros ->. apply Permutation_sym, Permutation_nil in Hperm. discriminate. }
      destruct (greatest_distance_spec (a :: l1) s) as [r1 [Hr1 [[t1 [Hin1 Ht1]] Hmax1]]];
        [discriminate|].
      destruct (greatest_distance_spec l2 s Hne2) as [r2 [Hr2 [[t2 [Hin2 Ht2]] Hmax2]]].
      rewrite Hr1, Hr2. f_equal. f_equal.
      apply Rle_antisym.
      * rewrite Ht1. apply Hmax2. apply (Permutation_in _ Hperm), Hin1.
      * rewrite Ht2. apply Hmax1.
        apply (Permutation_in _ (Permutation_sym Hperm)), Hin2.
  - intros r Hr. destruct l1 as [|a l1]; [discriminate Hr|].
    destruct (greatest_distance_spec (a :: l1) s) as [r1 [Hr1 [[t1 [_ Ht1]] _]]];
      [discriminate|].
    rewrite Hr1 in Hr. cbn [outcome] in Hr. injection Hr as <-.
    rewrite Ht1. apply sqrt_pos.
Qed.

Lemma greatest_distance_ignores_order_witness :
  Swervepy.greatest_distance_from_translations
    [mkTranslation2d 3 4; mkTranslation2d 1 0] tt
  = Swervepy.greatest_distance_from_translations
      [mkTranslation2d 1 0; mkTranslation2d 3 4] tt.
Proof.
  exact (proj1 (greatest_distance_ignores_order
                  [mkTranslation2d 3 4; mkTranslation2d 1 0]
                  [mkTranslation2d 1 0; mkTranslation2d 3 4] tt
                  (perm_swap _ _ []))).
Defined.

End Trajectory.

(** ** What the operations leave alone *)

Section LeftAlone.
Import Wpimath Hardware Py Observe Scheduler.

(** Only [periodic] and [reset_odometry] touch the pose estimator: through
    any history of drive calls, module commands, teleoperation cycles,
    module resets, heading zeroing and sensor changes the estimator, and so
    the pose, stays exactly as it was.  Both files. *)
Theorem only_periodic_and_reset_touch_the_estimator
    (py : Swervepy.SwerveDrive) (lib : Swervelib.SwerveDrive)
    (py_ops : list PyOp) (lib_ops : list LibOp) :
  forallb py_leaves_estimator py_ops = true ->
  forallb lib_leaves_estimator lib_ops = true ->
  Swervepy._odometry (py_after py_ops py) = Swervepy._odometry py
  /\ Swervelib._odometry (lib_after lib_ops lib) = Swervelib._odometry lib.
Proof.
  intros Hpy Hlib. split.
  - revert py. induction py_ops as [|op ops IH]; intros py; [reflexivity|].
    cbn [forallb] in Hpy. apply andb_prop in Hpy. destruct Hpy as [Hop Hq].
    cbn [py_after foldl]. change (foldl _ ?s0 ops) with (py_after ops s0).
    rewrite (IH Hq). apply py_step_leaves_estimator, Hop.
  - revert lib. induction lib_ops as [|op ops IH]; intros lib; [reflexivity|].
    cbn [forallb] in Hlib. apply andb_prop in Hlib. destruct Hlib as [Hop Hq].
    cbn [lib_after foldl]. change (foldl _ ?s0 ops) with (lib_after ops s0).
    rewrite (IH Hq). apply lib_step_leaves_estimator, Hop.
Qed.

Lemma only_periodic_and_reset_touch_the_estimator_witness :
  Swervepy._odometry
    (py_after [PyDrive (Swervepy.ByTranslation (mkTranslation2d 2 0) 0 true true);
               PyZeroHeading; PyResetModules]
       (Rig.swervepy_drive Rig.square))
  = Swervepy._odometry (Rig.swervepy_drive Rig.square).
Proof.
  exact (proj1 (only_periodic_and_reset_touch_the_estimator
                  (Rig.swervepy_drive Rig.square) (Rig.swervelib_drive Rig.square)
                  [PyDrive (Swervepy.ByTranslation (mkTranslation2d 2 0) 0 true true);
                   PyZeroHeading; PyResetModules]
                  [LibDrive (mkTranslation2d 2 0) 0 true true]
                  eq_refl eq_refl)).
Defined.



(** subsystem.py [periodic] shows on the field the pose the fusion update
    returned, whether or not a vision pose was then added: when the callback
    answers, the field shows the pose from before the correction while the
    [pose] accessor already has the corrected one. *)
Theorem field_shows_the_pose_before_correction
    (self : Swervepy.SwerveDrive) (t : R) :
  let fused :=
    update (heading (Swervepy._gyro self)) (Swervepy.module_positions self)
      (Swervepy._odometry self) in
  let after := final (Swervepy.periodic t self) in
  Swervepy.field after = Some (fst fused)
  /\ (forall vision,
        Swervepy._vision_pose_callback self (getEstimatedPosition (snd fused))
        = Some vision ->
        Swervepy.pose after
        = getEstimatedPosition (addVisionMeasurement vision t (snd fused)))
  /\ (Swervepy._vision_pose_callback self (getEstimatedPosition (snd fused)) = None ->
      Swervepy.pose after = fst fused).
Proof.
  intros fused after. subst after fused. rewrite swervepy_periodic_run.
  cbn [final Swervepy.field Swervepy.set_field]. split; [reflexivity|]. split.
  - intros vision Hv. rewrite Hv. reflexivity.
  - intros Hn. rewrite Hn. reflexivity.
Qed.

Lemma field_shows_the_pose_before_correction_witness :
  Swervepy.pose (final (Swervepy.periodic 1 (Rig.swervepy_drive Rig.square)))
  = Pose2d_origin.
Proof.
  exact (proj2 (proj2 (field_shows_the_pose_before_correction
                         (Rig.swervepy_drive Rig.square) 1)) eq_refl).
Defined.

(** [reset_modules] resets every module exactly once, in tuple order, for
    every module count, raises nothing and leaves the drivetrain object as
    it was; [zero_heading] makes the one gyro call. *)
Theorem reset_modules_resets_each_module_once (self : Swervepy.SwerveDrive) :
  Swervepy.reset_modules self
  = mkRun (map ModuleReset (seq 0 (length (Swervepy._modules self)))) self (inr tt)
  /\ calls (Swervepy.zero_heading self) = [GyroZeroHeading]
  /\ Swervepy._modules (final (Swervepy.zero_heading self)) = Swervepy._modules self
  /\ Swervepy._odometry (final (Swervepy.zero_heading self))
     = Swervepy._odometry self.
Proof.
  split; [|repeat split].
  unfold Swervepy.reset_modules. rewrite bind_get. apply for_each_calls.
Qed.

End LeftAlone.

(** ** The coaxial swerve module *)

Section CoaxialFacts.
Import Coaxial.

Variable degrees : Wpimath.Rotation2d -> R.

Lemma read_only_setters :
  Forall (fun p => forall v self, setter p v self = self)
         (double_properties (initSendable degrees empty_builder)).
Proof. repeat constructor. Qed.

Lemma write_is_identity
    (name : string) (val : R) (self : CoaxialSwerveModule) :
  dashboard_write (initSendable degrees empty_builder) name val self = self.
Proof.
  unfold dashboard_write.
  pose proof read_only_setters as Hall.
  induction Hall as [|p l Hp _ IH]; [reflexivity|].
  cbn [find]. destruct (bool_decide (key p = name)); [apply Hp | exact IH].
Qed.

(** Every property the module registers is read-only: a dashboard write of
    any value under any key leaves the module exactly as it was, so every
    later read shows what it showed before, and nothing is sent to the
    components. *)
Theorem coaxial_dashboard_is_read_only
    (name : string) (val : R) (self : CoaxialSwerveModule) :
  dashboard_write (initSendable degrees empty_builder) name val self = self
  /\ (forall name',
        dashboard_read (initSendable degrees empty_builder) name'
          (dashboard_write (initSendable degrees empty_builder) name val self)
        = dashboard_read (initSendable degrees empty_builder) name' self)
  /\ step degrees (DashboardWrite name val) self = (self, []).
Proof.
  split; [apply write_is_identity|]. split.
  - intros name'. rewrite write_is_identity. reflexivity.
  - cbn [step]. rewrite write_is_identity. reflexivity.
Qed.

Lemma step_effect (op : Op) (self : CoaxialSwerveModule) :
  last_commanded_drive_velocity (fst (step degrees op self))
  = last_drive_velocity (last_commanded_drive_velocity self) [op]
  /\ last_commanded_azimuth_angle (fst (step degrees op self))
     = last_azimuth_angle (last_commanded_azimuth_angle self) [op]
  /\ snd (step degrees op self) = calls_asked op
  /\ _drive (fst (step degrees op self)) = _drive self
  /\ _azimuth (fst (step degrees op self)) = _azimuth self
  /\ placement (fst (step degrees op self)) = placement self.
Proof.
  destruct op as [v [|]|a| |name val]; cbn [step];
    rewrite ?write_is_identity; repeat split.
Qed.

Lemma last_drive_velocity_cons (init : R) (op : Op) (ops : list Op) :
  last_drive_velocity init (op :: ops)
  = last_drive_velocity (last_drive_velocity init [op]) ops.
Proof. destruct op; reflexivity. Qed.

Lemma last_azimuth_angle_cons (init : Wpimath.Rotation2d) (op : Op)
    (ops : list Op) :
  last_azimuth_angle init (op :: ops)
  = last_azimuth_angle (last_azimuth_angle init [op]) ops.
Proof. destruct op; reflexivity. Qed.

Lemma after_cons (op : Op) (ops : list Op) (self : CoaxialSwerveModule) :
  after degrees (op :: ops) self
  = (fst (after degrees ops (fst (step degrees op self))),
     snd (step degrees op self)
     ++ snd (after degrees ops (fst (step degrees op self)))).
Proof.
  cbn [after]. destruct (step degrees op self) as [s1 c1].
  cbn [fst snd]. destruct (after degrees ops s1); reflexivity.
Qed.

(** After any history of drive commands, azimuth commands, resets and
    dashboard writes, the module's last-commanded velocity and angle are
    those of the last drive command and the last azimuth command (the
    starting values if there was none: a reset does not clear them), the
    dashboard's "Desired ..." properties show exactly these, the components
    were sent one follower call per command, open- or closed-loop as asked,
    and two resets per [reset], in order, and the component handles and the
    placement are the ones the module started with. *)
Theorem coaxial_module_remembers_last_command
    (ops : list Op) (self : CoaxialSwerveModule) :
  let self' := fst (after degrees ops self) in
  last_commanded_drive_velocity self'
  = last_drive_velocity (last_commanded_drive_velocity self) ops
  /\ last_commanded_azimuth_angle self'
     = last_azimuth_angle (last_commanded_azimuth_angle self) ops
  /\ dashboard_read (initSendable degrees empty_builder)
       "Desired Drive Velocity (mps)" self'
     = Some (last_drive_velocity (last_commanded_drive_velocity self) ops)
  /\ dashboard_read (initSendable degrees empty_builder)
       "Desired Azimuth Position (rad)" self'
     = Some (Wpimath.radians
               (last_azimuth_angle (last_commanded_azimuth_angle self) ops))
  /\ snd (after degrees ops self) = flat_map calls_asked ops
  /\ _drive self' = _drive self
  /\ _azimuth self' = _azimuth self
  /\ placement self' = placement self.
Proof.
  cbv zeta.
  assert (Hmain :
    last_commanded_drive_velocity (fst (after degrees ops self))
    = last_drive_velocity (last_commanded_drive_velocity self) ops
    /\ last_commanded_azimuth_angle (fst (after degrees ops self))
       = last_azimuth_angle (last_commanded_azimuth_angle self) ops
    /\ snd (after degrees ops self) = flat_map calls_asked ops
    /\ _drive (fst (after degrees ops self)) = _drive self
    /\ _azimuth (fst (after degrees ops self)) = _azimuth self
    /\ placement (fst (after degrees ops self)) = placement self).
  { revert self. induction ops as [|op ops IH]; intros self; [repeat split|].
    rewrite after_cons. cbn [fst snd flat_map].
    destruct (step_effect op self) as [Hv [Ha [Hc [Hd [Hz Hp]]]]].
    destruct (IH (fst (step degrees op self))) as [Gv [Ga [Gc [Gd [Gz Gp]]]]].
    rewrite last_drive_velocity_cons, last_azimuth_angle_cons.
    rewrite Gv, Ga, Gc, Gd, Gz, Gp, Hv, Ha, Hc, Hd, Hz, Hp. repeat split. }
  destruct Hmain as [Hv [Ha [Hc [Hd [Hz Hp]]]]].
  split; [exact Hv|]. split; [exact Ha|]. split; [|split; [|split; [exact Hc|]]].
  - rewrite <- Hv. reflexivity.
  - rewrite <- Ha. reflexivity.
  - split; [exact Hd|]. split; [exact Hz | exact Hp].
Qed.

End CoaxialFacts.
